(** * timeburn: the tracking controller of the browser extension

    A shallow embedding of [background.js] (the tracking controller) and of
    the one function of [popup.js] that writes the time totals
    ([resetAllData]).

    Conventions of the embedding.
    - The module-level variables of [background.js] ([activeTabId],
      [currentSite], [lastUpdateTime], [intervalId], [enabledPlatforms]) are
      fields of one record, [World], next to the parts of the host the code
      talks to: the armed interval timers, the two keys of
      [chrome.storage.local], and the queue of suspended [async] functions.
    - JavaScript runs every callback to completion.  An [async] function
      runs synchronously up to its first [await]; what follows the [await]
      is a continuation that the host resumes later, after the synchronous
      code that called it has returned.  Each such continuation is a [Task]
      in the [pending] queue, and [resume] runs the oldest one.
    - A storage operation takes effect in the segment that consumes its
      result ([get]) or issues it ([set]); segments do not overlap.  For
      [get] this is exact as long as no other write reaches the store
      between the call and its continuation, as when one storage call is
      in flight.  The part "Storage answered when the call is issued"
      drops the assumption: there a suspended function keeps the answer
      its [get] was given, and [Host] runs the controller with such calls
      in flight.
    - [Date.now()] is an explicit argument [now] of every synchronous
      segment; times are integers (milliseconds), minute counts are
      integers, both far below 2^53, so JavaScript's number arithmetic on
      them is exact and [Math.floor (x / 60000)] is [Z.div].
    - JavaScript objects used as dictionaries are [gmap string _]; a missing
      key reads as [undefined], which is falsy. *)

From Stdlib Require Import ZArith Lia Ascii.
From stdpp Require Import gmap strings list fin_maps pretty.

Local Open Scope Z_scope.

(** ** Data model *)

Record TrackedSite := mkSite { hostname : string; name : string }.

#[global] Instance TrackedSite_eq_dec : EqDecision TrackedSite.
Proof. solve_decision. Defined.

(** [const TRACKED_SITES = [...]] *)
Definition TRACKED_SITES : list TrackedSite :=
  [ mkSite "axiom.trade" "Axiom";
    mkSite "trade.padre.gg" "Terminal";
    mkSite "gmgn.ai" "Gmgn" ].

(** [DEFAULT_SETTINGS.enabledPlatforms] *)
Definition DEFAULT_enabledPlatforms : gmap string bool :=
  <["axiom.trade" := true]>
    (<["trade.padre.gg" := false]> (<["gmgn.ai" := false]> ∅)).

(** One value of the [timeData] object: [{ name, totalMinutes }]. *)
Record SiteTime := mkSiteTime { entry_name : string; totalMinutes : Z }.

#[global] Instance SiteTime_eq_dec : EqDecision SiteTime.
Proof. solve_decision. Defined.

(** The [settings] object.  [background.js] writes only
    [enabledPlatforms]; [popup.js] adds [theme] and [customBgImage]. *)
Record Settings := mkSettings {
  settings_enabledPlatforms : option (gmap string bool);
  settings_theme : option string;
  settings_customBgImage : option string
}.

(** [DEFAULT_SETTINGS] of [background.js]. *)
Definition DEFAULT_SETTINGS : Settings :=
  mkSettings (Some DEFAULT_enabledPlatforms) None None.

(** Suspended [async] functions: the rest of [updateTime] and of
    [initializeStorage] after each of their [await]s, with the local
    variables the rest still reads. *)
Inductive Task :=
| UpdateTime_afterGet (now elapsedMinutes : Z)
| UpdateTime_afterSet (now : Z)
| Init_afterGet
| Init_afterSetTimeData (settings : option Settings)
| Init_afterSetSettings.

Record World := mkWorld {
  (* module-level variables of background.js *)
  activeTabId : option Z;
  currentSite : option TrackedSite;
  lastUpdateTime : Z;
  intervalId : option positive;
  enabledPlatforms : gmap string bool;
  (* host: interval timers that are armed, and the next handle *)
  timers : list positive;
  nextTimerId : positive;
  (* host: chrome.storage.local *)
  stored_timeData : option (gmap string SiteTime);
  stored_settings : option Settings;
  (* host: suspended async functions, oldest first *)
  pending : list Task;
  (* host: promises rejected with nobody listening *)
  unhandledRejections : nat
}.

(** Field updates. *)
Definition set_activeTabId (v : option Z) (w : World) : World :=
  mkWorld v (currentSite w) (lastUpdateTime w) (intervalId w)
    (enabledPlatforms w) (timers w) (nextTimerId w) (stored_timeData w)
    (stored_settings w) (pending w) (unhandledRejections w).

Definition set_currentSite (v : option TrackedSite) (w : World) : World :=
  mkWorld (activeTabId w) v (lastUpdateTime w) (intervalId w)
    (enabledPlatforms w) (timers w) (nextTimerId w) (stored_timeData w)
    (stored_settings w) (pending w) (unhandledRejections w).

Definition set_lastUpdateTime (v : Z) (w : World) : World :=
  mkWorld (activeTabId w) (currentSite w) v (intervalId w)
    (enabledPlatforms w) (timers w) (nextTimerId w) (stored_timeData w)
    (stored_settings w) (pending w) (unhandledRejections w).

Definition set_enabledPlatforms (v : gmap string bool) (w : World) : World :=
  mkWorld (activeTabId w) (currentSite w) (lastUpdateTime w) (intervalId w)
    v (timers w) (nextTimerId w) (stored_timeData w)
    (stored_settings w) (pending w) (unhandledRejections w).

Definition set_stored_timeData (v : option (gmap string SiteTime))
    (w : World) : World :=
  mkWorld (activeTabId w) (currentSite w) (lastUpdateTime w) (intervalId w)
    (enabledPlatforms w) (timers w) (nextTimerId w) v
    (stored_settings w) (pending w) (unhandledRejections w).

Definition set_stored_settings (v : option Settings) (w : World) : World :=
  mkWorld (activeTabId w) (currentSite w) (lastUpdateTime w) (intervalId w)
    (enabledPlatforms w) (timers w) (nextTimerId w) (stored_timeData w)
    v (pending w) (unhandledRejections w).

Definition set_pending (v : list Task) (w : World) : World :=
  mkWorld (activeTabId w) (currentSite w) (lastUpdateTime w) (intervalId w)
    (enabledPlatforms w) (timers w) (nextTimerId w) (stored_timeData w)
    (stored_settings w) v (unhandledRejections w).

(** [await]: the rest of the function joins the queue. *)
Definition suspend (t : Task) (w : World) : World :=
  set_pending (pending w ++ [t]) w.

(** An exception leaves an [async] function: its promise is rejected. *)
Definition reject (w : World) : World :=
  mkWorld (activeTabId w) (currentSite w) (lastUpdateTime w) (intervalId w)
    (enabledPlatforms w) (timers w) (nextTimerId w) (stored_timeData w)
    (stored_settings w) (pending w) (S (unhandledRejections w)).

(** [setInterval(updateTime, 10000)]: a fresh, non-zero handle. *)
Definition setInterval (w : World) : World :=
  mkWorld (activeTabId w) (currentSite w) (lastUpdateTime w)
    (Some (nextTimerId w))
    (enabledPlatforms w) (nextTimerId w :: timers w)
    (Pos.succ (nextTimerId w)) (stored_timeData w)
    (stored_settings w) (pending w) (unhandledRejections w).

(** [clearInterval(intervalId); intervalId = null] *)
Definition clearInterval (i : positive) (w : World) : World :=
  mkWorld (activeTabId w) (currentSite w) (lastUpdateTime w) None
    (enabledPlatforms w) (filter (λ j, j ≠ i) (timers w))
    (nextTimerId w) (stored_timeData w)
    (stored_settings w) (pending w) (unhandledRejections w).

(** The persisted total of a hostname; a hostname without an entry has
    accumulated nothing. *)
Definition total_in (h : string) (timeData : gmap string SiteTime) : Z :=
  match timeData !! h with
  | Some e => totalMinutes e
  | None => 0
  end.

Definition total_of (h : string) (w : World) : Z :=
  total_in h (default ∅ (stored_timeData w)).

(** ** [getTrackedSite] *)

(** The outcome of a block that may throw. *)
Inductive completion (A : Type) :=
| Normal (a : A)
| Throw.
Arguments Normal {A} a.
Arguments Throw {A}.

(** [!url] for a string that may be missing. *)
Definition falsy_url (url : option string) : bool :=
  match url with
  | None => true
  | Some u => bool_decide (u = "")
  end.

Section Controller.

(** [new URL(url).hostname] is the host's URL parser; [Throw] is the
    [TypeError] it raises on an invalid URL. *)
Variable URL_hostname : string → completion string.

(** The body of the [try] block. *)
Definition getTrackedSite_try (ep : gmap string bool) (u : string)
    : completion (option TrackedSite) :=
  match URL_hostname u with
  | Throw => Throw
  | Normal urlObj_hostname =>
      let site :=
        find (λ site, bool_decide (urlObj_hostname = hostname site))
             TRACKED_SITES in
      match site with
      | Some site =>
          match ep !! hostname site with
          | Some true => Normal (Some site)
          | _ => Normal None
          end
      | None => Normal None
      end
  end.

(** The whole function, as a completion: [if (!url) return null;], then
    the [try] block under [catch (e) { return null; }]. *)
Definition getTrackedSite_completion (ep : gmap string bool)
    (url : option string) : completion (option TrackedSite) :=
  if falsy_url url then Normal None
  else match url with
       | None => Normal None
       | Some u =>
           match getTrackedSite_try ep u with
           | Normal r => Normal r
           | Throw => Normal None
           end
       end.

(** The value it returns to its callers. *)
Definition getTrackedSite (ep : gmap string bool) (url : option string)
    : option TrackedSite :=
  match getTrackedSite_completion ep url with
  | Normal r => r
  | Throw => None
  end.

(** ** [updateTime] *)

(** [Math.floor((now - lastUpdateTime) / 60000)] *)
Definition elapsedMinutes (now : Z) (w : World) : Z :=
  (now - lastUpdateTime w) / 60000.

(** The synchronous part, up to [await chrome.storage.local.get]. *)
Definition updateTime (now : Z) (w : World) : World :=
  match currentSite w with
  | None => w
  | Some _ =>
      if 1 <=? elapsedMinutes now w
      then suspend (UpdateTime_afterGet now (elapsedMinutes now w)) w
      else w
  end.

(** [timeData[currentSite.hostname].totalMinutes += elapsedMinutes], after
    the entry was created when it was missing. *)
Definition credit (site : TrackedSite) (minutes : Z)
    (timeData : gmap string SiteTime) : gmap string SiteTime :=
  let timeData1 :=
    match timeData !! hostname site with
    | Some _ => timeData
    | None => <[hostname site := mkSiteTime (name site) 0]> timeData
    end in
  alter (λ e, mkSiteTime (entry_name e) (totalMinutes e + minutes))
        (hostname site) timeData1.

(** From the result of [get] to [await chrome.storage.local.set].  The
    function reads the variable [currentSite] again here; on [null] the
    property access throws. *)
Definition updateTime_afterGet (now minutes : Z) (w : World) : World :=
  let timeData := default ∅ (stored_timeData w) in
  match currentSite w with
  | None => reject w
  | Some site =>
      suspend (UpdateTime_afterSet now)
        (set_stored_timeData (Some (credit site minutes timeData)) w)
  end.

(** After [set]: [lastUpdateTime = now]. *)
Definition updateTime_afterSet (now : Z) (w : World) : World :=
  set_lastUpdateTime now w.

(** ** [stopTracking] and [startTracking] *)

Definition stopTracking (now : Z) (w : World) : World :=
  let w1 :=
    match intervalId w with
    | Some i => clearInterval i w
    | None => w
    end in
  let w2 :=
    match currentSite w1 with
    | Some _ => updateTime now w1
    | None => w1
    end in
  set_currentSite None w2.

(** [currentSite?.hostname === site?.hostname] *)
Definition same_hostname (a b : option TrackedSite) : bool :=
  bool_decide (hostname <$> a = hostname <$> b).

Definition startTracking (now : Z) (site : option TrackedSite) (w : World)
    : World :=
  if same_hostname (currentSite w) site then w
  else
    let w1 := stopTracking now w in
    let w2 := set_lastUpdateTime now (set_currentSite site w1) in
    match site with
    | Some _ => setInterval w2
    | None => w2
    end.

(** ** [initializeStorage] *)

(** [initialData]: a zero entry for every tracked site. *)
Definition initialData : gmap string SiteTime :=
  foldl (λ acc site, <[hostname site := mkSiteTime (name site) 0]> acc)
        ∅ TRACKED_SITES.

(** The second half of the function, from [if (!data.settings)]. *)
Definition initializeStorage_settings (settings : option Settings)
    (w : World) : World :=
  match settings with
  | None =>
      suspend Init_afterSetSettings
        (set_stored_settings (Some DEFAULT_SETTINGS) w)
  | Some s =>
      set_enabledPlatforms
        (default DEFAULT_enabledPlatforms (settings_enabledPlatforms s)) w
  end.

Definition initializeStorage (w : World) : World :=
  suspend Init_afterGet w.

Definition initializeStorage_afterGet (w : World) : World :=
  match stored_timeData w with
  | None =>
      suspend (Init_afterSetTimeData (stored_settings w))
        (set_stored_timeData (Some initialData) w)
  | Some _ => initializeStorage_settings (stored_settings w) w
  end.

(** ** The host resumes a suspended function *)

Definition run_task (t : Task) (w : World) : World :=
  match t with
  | UpdateTime_afterGet now minutes => updateTime_afterGet now minutes w
  | UpdateTime_afterSet now => updateTime_afterSet now w
  | Init_afterGet => initializeStorage_afterGet w
  | Init_afterSetTimeData settings => initializeStorage_settings settings w
  | Init_afterSetSettings => set_enabledPlatforms DEFAULT_enabledPlatforms w
  end.

Definition resume (w : World) : World :=
  match pending w with
  | [] => w
  | t :: rest => run_task t (set_pending rest w)
  end.

(** Every task has a bounded number of segments left. *)
Definition task_weight (t : Task) : nat :=
  match t with
  | UpdateTime_afterGet _ _ => 2
  | UpdateTime_afterSet _ => 1
  | Init_afterGet => 3
  | Init_afterSetTimeData _ => 2
  | Init_afterSetSettings => 1
  end%nat.

Definition queue_weight (q : list Task) : nat :=
  foldr (λ t n, (task_weight t + n)%nat) 0%nat q.

Fixpoint drain (fuel : nat) (w : World) : World :=
  match fuel with
  | O => w
  | S fuel' =>
      match pending w with
      | [] => w
      | _ :: _ => drain fuel' (resume w)
      end
  end.

(** Let every suspended function run to its end, with no other callback
    in between. *)
Definition quiesce (w : World) : World :=
  drain (queue_weight (pending w)) w.

(** A flush on its own: the timer calls [updateTime] and the function runs
    to its end before anything else happens. *)
Definition flush (now : Z) (w : World) : World :=
  quiesce (updateTime now w).

(** ** The listeners

    The listeners that [await] host queries ([chrome.tabs.get],
    [chrome.windows.get], [chrome.tabs.query]) touch the controller only
    after the last of them; the answers of the host are arguments here. *)

Record Tab := mkTab { tab_id : Z; tab_url : option string }.

(** First [chrome.tabs.onActivated] listener. *)
Definition onActivated_1 (tab : Tab) (minimized : bool) (now : Z)
    (w : World) : World :=
  let w1 := set_activeTabId (Some (tab_id tab)) w in
  if minimized then stopTracking now w1
  else startTracking now (getTrackedSite (enabledPlatforms w1) (tab_url tab)) w1.

(** Second [chrome.tabs.onActivated] listener ("visibility changes"). *)
Definition onActivated_2 (tab : Tab) (minimized : bool) (now : Z)
    (w : World) : World :=
  if minimized then stopTracking now w
  else startTracking now (getTrackedSite (enabledPlatforms w) (tab_url tab)) w.

(** [chrome.tabs.onUpdated] listener. *)
Definition onUpdated (tabId : Z) (changeInfo_url : option string) (now : Z)
    (w : World) : World :=
  if bool_decide (Some tabId = activeTabId w) && negb (falsy_url changeInfo_url)
  then startTracking now (getTrackedSite (enabledPlatforms w) changeInfo_url) w
  else w.

(** [chrome.windows.onFocusChanged] listener; [focused = None] is
    [WINDOW_ID_NONE], otherwise the answer of the tab query. *)
Definition onFocusChanged (focused : option (option Tab)) (now : Z)
    (w : World) : World :=
  match focused with
  | None => stopTracking now w
  | Some None => w
  | Some (Some tab) =>
      let w1 := set_activeTabId (Some (tab_id tab)) w in
      startTracking now (getTrackedSite (enabledPlatforms w1) (tab_url tab)) w1
  end.

Inductive Message :=
| UpdateEnabledPlatforms (enabledPlatforms : gmap string bool)
| OtherMessage.

(** The callback of the tab query inside the message listener; [tabs0] is
    [tabs[0]]. *)
Definition recheck_current_tab (tabs0 : option Tab) (now : Z) (w : World)
    : World :=
  match tabs0 with
  | None => w
  | Some tab =>
      match getTrackedSite (enabledPlatforms w) (tab_url tab) with
      | None => stopTracking now w
      | Some site =>
          if same_hostname (currentSite w) (Some site) then w
          else startTracking now (Some site) w
      end
  end.

(** [chrome.runtime.onMessage] listener, with the query callback. *)
Definition onMessage (message : Message) (tabs0 : option Tab) (now : Z)
    (w : World) : World :=
  match message with
  | UpdateEnabledPlatforms newMap =>
      recheck_current_tab tabs0 now (set_enabledPlatforms newMap w)
  | OtherMessage => w
  end.

(** The query at the end of the script. *)
Definition onLoad_query (tabs0 : option Tab) (now : Z) (w : World) : World :=
  match tabs0 with
  | None => w
  | Some tab =>
      let w1 := set_activeTabId (Some (tab_id tab)) w in
      startTracking now (getTrackedSite (enabledPlatforms w1) (tab_url tab)) w1
  end.

(** [resetAllData] of [popup.js]; [confirmed] is the answer to [confirm]. *)
Definition resetData : gmap string SiteTime :=
  <["axiom.trade" := mkSiteTime "Axiom" 0]>
    (<["trade.padre.gg" := mkSiteTime "Terminal" 0]>
       (<["gmgn.ai" := mkSiteTime "Gmgn" 0]> ∅)).

Definition resetAllData (confirmed : bool) (w : World) : World :=
  if confirmed then set_stored_timeData (Some resetData) w else w.

(** ** The controller as a transition system *)

Inductive Event :=
| EvTimer (id : positive) (now : Z)
| EvResume
| EvTabActivated (tab : Tab) (minimized : bool) (now : Z)
| EvTabUpdated (tabId : Z) (changeInfo_url : option string) (now : Z)
| EvFocusChanged (focused : option (option Tab)) (now : Z)
| EvMessage (message : Message) (tabs0 : option Tab) (now : Z)
| EvInitialize
| EvLoadQuery (tabs0 : option Tab) (now : Z)
| EvReset (confirmed : bool).

Definition step (ev : Event) (w : World) : World :=
  match ev with
  | EvTimer id now =>
      if bool_decide (id ∈ timers w) then updateTime now w else w
  | EvResume => resume w
  | EvTabActivated tab minimized now =>
      onActivated_2 tab minimized now (onActivated_1 tab minimized now w)
  | EvTabUpdated tabId url now => onUpdated tabId url now w
  | EvFocusChanged focused now => onFocusChanged focused now w
  | EvMessage message tabs0 now => onMessage message tabs0 now w
  | EvInitialize => initializeStorage w
  | EvLoadQuery tabs0 now => onLoad_query tabs0 now w
  | EvReset confirmed => resetAllData confirmed w
  end.

(** The state when the script is loaded: [lastUpdateTime = Date.now()],
    nothing tracked, whatever the store holds from earlier runs. *)
Definition initial (now : Z) (timeData : option (gmap string SiteTime))
    (settings : option Settings) : World :=
  mkWorld None None now None DEFAULT_enabledPlatforms
          [] 1%positive timeData settings [] 0%nat.

Inductive reachable : World → Prop :=
| reachable_initial now timeData settings :
    reachable (initial now timeData settings)
| reachable_step ev w : reachable w → reachable (step ev w).

Definition run (evs : list Event) (w : World) : World :=
  foldl (λ w ev, step ev w) w evs.

End Controller.

(** ** A parser to evaluate examples with

    A small instance of the host's URL parser: the text between [://] and
    the first of [/ ? # :], and a [TypeError] when there is no [://] or
    nothing after it. *)

Fixpoint after_scheme (s : string) : option string :=
  match s with
  | String c rest =>
      match c, rest with
      | ":"%char, String "/"%char (String "/"%char rest') => Some rest'
      | _, _ => after_scheme rest
      end
  | EmptyString => None
  end.

Fixpoint host_prefix (s : string) : string :=
  match s with
  | EmptyString => EmptyString
  | String c rest =>
      if bool_decide (c ∈ ["/"; "?"; "#"; ":"]%char) then EmptyString
      else String c (host_prefix rest)
  end.

Definition sample_URL_hostname (u : string) : completion string :=
  match after_scheme u with
  | None => Throw
  | Some rest =>
      if bool_decide (host_prefix rest = "") then Throw
      else Normal (host_prefix rest)
  end.

(** A session on axiom.trade that began at time 0, with five minutes
    already stored for the site. *)
Definition axiom_site : TrackedSite := mkSite "axiom.trade" "Axiom".
Definition gmgn_site : TrackedSite := mkSite "gmgn.ai" "Gmgn".

Definition tracking_axiom : World :=
  mkWorld (Some 7) (Some axiom_site) 0 (Some 1%positive)
          DEFAULT_enabledPlatforms [1%positive] 2%positive
          (Some (<["axiom.trade" := mkSiteTime "Axiom" 5]> ∅))
          (Some DEFAULT_SETTINGS) [] 0%nat.

(** ** [popup.js]: the display of a total and the settings handlers

    The popup shares [chrome.storage.local] with the controller.  Its
    handlers are given by what they read from and write to the store and by
    the message they send; what they draw in the page is left out. *)

(** [Math.floor(totalMinutes / 60)] and [totalMinutes % 60]; the remainder
    of JavaScript has the sign of the dividend. *)
Definition formatTime_hours (total : Z) : Z := total / 60.
Definition formatTime_minutes (total : Z) : Z := Z.rem total 60.

(** [`${hours}h ${minutes}m`]: integers print in decimal. *)
Definition formatTime (total : Z) : string :=
  pretty (formatTime_hours total) +:+ "h "
  +:+ pretty (formatTime_minutes total) +:+ "m".

(** [DEFAULT_SETTINGS] of [popup.js]. *)
Definition popup_DEFAULT_SETTINGS : Settings :=
  mkSettings (Some DEFAULT_enabledPlatforms) (Some "default") None.

(** [loadSettings]: [data.settings || DEFAULT_SETTINGS].  When the store
    has no settings the handlers change the default object in place and
    save it; the store has settings from then on, so the changed default
    is not read again. *)
Definition loadSettings (w : World) : Settings :=
  default popup_DEFAULT_SETTINGS (stored_settings w).

Definition saveSettings (settings : Settings) (w : World) : World :=
  set_stored_settings (Some settings) w.

(** The [change] listener of a platform toggle, up to [sendMessage]: the
    new store and the message, if one is sent.  Assigning into
    [settings.enabledPlatforms] when the stored settings have no such
    field throws. *)
Definition onPlatformToggle (platform : string) (checked : bool) (w : World)
    : World * option Message :=
  let settings := loadSettings w in
  match settings_enabledPlatforms settings with
  | None => (reject w, None)
  | Some ep =>
      let ep' := <[platform := checked]> ep in
      (saveSettings
         (mkSettings (Some ep') (settings_theme settings)
                     (settings_customBgImage settings)) w,
       Some (UpdateEnabledPlatforms ep'))
  end.







(** A toggle in the popup and the delivery of its message to the
    controller. *)
Definition toggle_and_notify (URL_hostname : string → completion string)
    (platform : string) (checked : bool) (tabs0 : option Tab) (now : Z)
    (w : World) : World :=
  match onPlatformToggle platform checked w with
  | (w1, Some message) => onMessage URL_hostname message tabs0 now w1
  | (w1, None) => w1
  end.

(** ** Runs *)

(** [initializeStorage] called and run to its end. *)
Definition initialize (w : World) : World :=
  quiesce (initializeStorage w).

(** Flushes one after the other, each run to its end. *)
Definition flushes (times : list Z) (w : World) : World :=
  foldl (λ w t, flush t w) w times.

(** Times that do not go back. *)
Fixpoint nondecreasing_from (t0 : Z) (times : list Z) : Prop :=
  match times with
  | [] => True
  | t :: rest => t0 ≤ t ∧ nondecreasing_from t rest
  end.



(** Decimal digits, and strings of them. *)
Definition is_digit (c : ascii) : Prop :=
  c ∈ ["0"; "1"; "2"; "3"; "4"; "5"; "6"; "7"; "8"; "9"]%char.

Fixpoint all_digits (s : string) : Prop :=
  match s with
  | EmptyString => True
  | String c rest => is_digit c ∧ all_digits rest
  end.

(** ** Storage answered when the call is issued

    [chrome.storage.local.get] is answered from the store as it is when
    the call is made; the continuation works on that answer, however the
    store has changed by the time it resumes, and [set({ timeData })]
    writes the whole table back. *)

(** [updateTime] from the answer [data] of its [get] on. *)
Definition updateTime_afterGet_with
    (data_timeData : option (gmap string SiteTime)) (now minutes : Z)
    (w : World) : World :=
  let timeData := default ∅ data_timeData in
  match currentSite w with
  | None => reject w
  | Some site =>
      suspend (UpdateTime_afterSet now)
        (set_stored_timeData (Some (credit site minutes timeData)) w)
  end.

(** [initializeStorage] from the answer [data] of its [get] on. *)
Definition initializeStorage_afterGet_with
    (data_timeData : option (gmap string SiteTime))
    (data_settings : option Settings) (w : World) : World :=
  match data_timeData with
  | None =>
      suspend (Init_afterSetTimeData data_settings)
        (set_stored_timeData (Some initialData) w)
  | Some _ => initializeStorage_settings data_settings w
  end.

(** A suspended function, with the store as it was when the function was
    suspended.  The functions that wait for a [get] read it as the answer;
    the others ignore it. *)
Record Call := mkCall {
  call_task : Task;
  call_timeData : option (gmap string SiteTime);
  call_settings : option Settings
}.

Definition run_call (c : Call) (w : World) : World :=
  match call_task c with
  | UpdateTime_afterGet now minutes =>
      updateTime_afterGet_with (call_timeData c) now minutes w
  | Init_afterGet =>
      initializeStorage_afterGet_with (call_timeData c) (call_settings c) w
  | t => run_task t w
  end.








(** ** Notions the statements use *)

(** A URL the controller cannot resolve: missing, empty, or rejected by
    the parser. *)
Definition malformed (URL_hostname : string → completion string)
    (url : option string) : Prop :=
  match url with
  | None => True
  | Some u => u = "" ∨ URL_hostname u = Throw
  end.

(** The part of the state that [startTracking] and [stopTracking] own. *)
Definition session (w : World) : option TrackedSite * option positive * list positive :=
  (currentSite w, intervalId w, timers w).

(** Events that run a listener of [background.js] or its timer callback:
    all but the resumption of a suspended function and the popup's
    reset. *)
Definition is_listener (ev : Event) : Prop :=
  match ev with
  | EvResume | EvReset _ => False
  | _ => True
  end.

(** Every suspended [updateTime] carries at least one minute: it only
    suspends under [if (elapsedMinutes >= 1)]. *)
Definition minutes_positive (t : Task) : Prop :=
  match t with
  | UpdateTime_afterGet _ minutes => 1 ≤ minutes
  | _ => True
  end.

Definition pending_ok (w : World) : Prop :=
  Forall minutes_positive (pending w).

(** The handle is set exactly when a site is tracked, and the armed timers
    are that handle and no other. *)
Definition timer_matches_session (w : World) : Prop :=
  (is_Some (intervalId w) ↔ is_Some (currentSite w)) ∧
  timers w = option_list (intervalId w).


(** * Properties *)

(** ** [getTrackedSite] *)

Section GetTrackedSite.

Variable URL_hostname : string → completion string.

Lemma find_tracked_hostname (h : string) (site : TrackedSite) :
  find (λ s, bool_decide (h = hostname s)) TRACKED_SITES = Some site ↔
  site ∈ TRACKED_SITES ∧ hostname site = h.
Proof.
  unfold TRACKED_SITES. split.
  - cbn [find hostname].
    repeat case_bool_decide; intros Hsite; simplify_eq;
      (split; [set_solver | reflexivity]).
  - intros [Hin <-].
    repeat (apply elem_of_cons in Hin as [-> | Hin]; [reflexivity |]).
    by apply elem_of_nil in Hin.
Qed.

Lemma find_tracked_none (h : string) :
  find (λ s, bool_decide (h = hostname s)) TRACKED_SITES = None ↔
  h ∉ hostname <$> TRACKED_SITES.
Proof.
  unfold TRACKED_SITES. cbn [find hostname fmap list_fmap].
  split.
  - repeat case_bool_decide; try discriminate. intros _.
    rewrite !elem_of_cons, elem_of_nil. tauto.
  - intros Hnot.
    rewrite !bool_decide_eq_false_2; [reflexivity | ..];
      intros ->; apply Hnot; rewrite !elem_of_cons; auto.
Qed.

Lemma getTrackedSite_value (ep : gmap string bool) (url : option string) :
  getTrackedSite_completion URL_hostname ep url
  = Normal (getTrackedSite URL_hostname ep url).
Proof.
  unfold getTrackedSite, getTrackedSite_completion.
  destruct (falsy_url url); [reflexivity |].
  destruct url as [u |]; [| reflexivity].
  destruct (getTrackedSite_try URL_hostname ep u); reflexivity.
Qed.

Lemma getTrackedSite_Some (ep : gmap string bool) (url : option string)
    (site : TrackedSite) :
  getTrackedSite URL_hostname ep url = Some site ↔
  ∃ u, url = Some u ∧ u ≠ "" ∧
       URL_hostname u = Normal (hostname site) ∧
       site ∈ TRACKED_SITES ∧
       ep !! hostname site = Some true.
Proof.
  unfold getTrackedSite, getTrackedSite_completion, getTrackedSite_try.
  destruct url as [u |]; cbn [falsy_url].
  2: { split; [discriminate | intros (u & [=] & _)]. }
  case_bool_decide as Hu.
  { split; [discriminate | intros (u' & [= <-] & Hne & _); contradiction]. }
  destruct (URL_hostname u) as [h |] eqn:Hh.
  2: { split; [discriminate | intros (u' & [= <-] & _ & Hp & _)].
       rewrite Hh in Hp. discriminate. }
  destruct (find _ TRACKED_SITES) as [s |] eqn:Hfind.
  - apply find_tracked_hostname in Hfind as [Hin Hs].
    split.
    + destruct (ep !! hostname s) as [[] |] eqn:Hep; try discriminate.
      intros [= <-]. exists u. subst h. eauto.
    + intros (u' & [= <-] & _ & Hp & Hin' & Hep').
      rewrite Hh in Hp. injection Hp as Hp.
      assert (s = site) as ->.
      { assert (Some s = Some site) as [= ->]; [| reflexivity].
        rewrite <- (proj2 (find_tracked_hostname h s) (conj Hin Hs)).
        apply find_tracked_hostname. split; [assumption | congruence]. }
      rewrite Hep'. reflexivity.
  - apply find_tracked_none in Hfind.
    split; [discriminate |].
    intros (u' & [= <-] & _ & Hp & Hin' & _).
    rewrite Hh in Hp. injection Hp as ->.
    exfalso. apply Hfind. apply list_elem_of_fmap. eauto.
Qed.

End GetTrackedSite.

(** C3.  [getTrackedSite] returns a site exactly when the hostname of the
    URL is the hostname of a site of [TRACKED_SITES] that
    [enabledPlatforms] maps to [true], and then it returns that site; for a
    hostname outside the list, and for a listed hostname that is not
    enabled, it returns [null]. *)
Theorem getTrackedSite_tracked_and_enabled
    (URL_hostname : string → completion string) (ep : gmap string bool) :
  (∀ url site,
      getTrackedSite URL_hostname ep url = Some site ↔
      ∃ u, url = Some u ∧ u ≠ "" ∧
           URL_hostname u = Normal (hostname site) ∧
           site ∈ TRACKED_SITES ∧
           ep !! hostname site = Some true) ∧
  (∀ u h,
      URL_hostname u = Normal h →
      h ∉ hostname <$> TRACKED_SITES →
      getTrackedSite URL_hostname ep (Some u) = None) ∧
  (∀ u site,
      URL_hostname u = Normal (hostname site) →
      site ∈ TRACKED_SITES →
      ep !! hostname site ≠ Some true →
      getTrackedSite URL_hostname ep (Some u) = None).
Proof.
  split; [| split].
  - intros url site. apply getTrackedSite_Some.
  - intros u h Hh Hnot.
    destruct (getTrackedSite URL_hostname ep (Some u)) as [s |] eqn:Hs;
      [| reflexivity].
    apply getTrackedSite_Some in Hs as (u' & [= <-] & _ & Hp & Hin & _).
    rewrite Hh in Hp. injection Hp as ->.
    exfalso. apply Hnot. apply list_elem_of_fmap. eauto.
  - intros u site Hh Hin Hoff.
    destruct (getTrackedSite URL_hostname ep (Some u)) as [s |] eqn:Hs;
      [| reflexivity].
    apply getTrackedSite_Some in Hs as (u' & [= <-] & _ & Hp & Hin' & Hon).
    rewrite Hh in Hp. injection Hp as Hp. rewrite <- Hp in Hon.
    contradiction.
Qed.

Lemma getTrackedSite_tracked_and_enabled_witness :
  sample_URL_hostname "https://gmgn.ai/?chain=sol" = Normal (hostname gmgn_site) ∧
  DEFAULT_enabledPlatforms !! hostname gmgn_site ≠ Some true ∧
  getTrackedSite sample_URL_hostname DEFAULT_enabledPlatforms
    (Some "https://gmgn.ai/?chain=sol") = None.
Proof.
  split; [reflexivity |]. split; [by vm_compute |].
  apply (proj2 (proj2 (getTrackedSite_tracked_and_enabled
                         sample_URL_hostname DEFAULT_enabledPlatforms))
           "https://gmgn.ai/?chain=sol" gmgn_site).
  - reflexivity.
  - unfold TRACKED_SITES, gmgn_site. repeat constructor.
  - by vm_compute.
Defined.

(** C4.  On a missing, empty or unparsable URL [getTrackedSite] completes
    normally and returns [null]: the [TypeError] of the parser does not
    leave the function. *)
Theorem getTrackedSite_malformed_url
    (URL_hostname : string → completion string) (ep : gmap string bool)
    (url : option string) :
  malformed URL_hostname url →
  getTrackedSite_completion URL_hostname ep url = Normal None.
Proof.
  unfold malformed, getTrackedSite_completion, getTrackedSite_try.
  destruct url as [u |]; cbn [falsy_url]; [| reflexivity].
  intros [-> | Hthrow]; [reflexivity |].
  case_bool_decide; [reflexivity |].
  rewrite Hthrow. reflexivity.
Qed.

Lemma getTrackedSite_malformed_url_witness :
  malformed sample_URL_hostname (Some "axiom.trade") ∧
  getTrackedSite_completion sample_URL_hostname DEFAULT_enabledPlatforms
    (Some "axiom.trade") = Normal None.
Proof.
  assert (malformed sample_URL_hostname (Some "axiom.trade")) as Hbad.
  { right. reflexivity. }
  split; [exact Hbad |].
  exact (getTrackedSite_malformed_url sample_URL_hostname
           DEFAULT_enabledPlatforms (Some "axiom.trade") Hbad).
Defined.

(** ** [startTracking] on the site already tracked *)

Lemma same_hostname_true (a b : option TrackedSite) :
  same_hostname a b = true ↔ hostname <$> a = hostname <$> b.
Proof. unfold same_hostname. apply bool_decide_eq_true. Qed.

Lemma startTracking_currentSite (now : Z) (site : option TrackedSite)
    (w : World) :
  hostname <$> currentSite (startTracking now site w) = hostname <$> site.
Proof.
  unfold startTracking.
  destruct (same_hostname (currentSite w) site) eqn:Hsame.
  - by apply same_hostname_true.
  - destruct site; reflexivity.
Qed.

(** C5.  When the argument has the hostname of [currentSite] (both may be
    [null]), [startTracking] changes nothing: [lastUpdateTime], the timer
    handle and the armed timers stay as they are.  In particular a second
    call with the same site undoes nothing of the first. *)
Theorem startTracking_same_site_noop (now : Z) (site : option TrackedSite)
    (w : World) :
  hostname <$> currentSite w = hostname <$> site →
  startTracking now site w = w ∧
  ∀ now', startTracking now' site (startTracking now site w)
          = startTracking now site w.
Proof.
  intros Hsame.
  assert (∀ t w', hostname <$> currentSite w' = hostname <$> site →
                  startTracking t site w' = w') as Hnoop.
  { intros t w' H. unfold startTracking.
    apply same_hostname_true in H. rewrite H. reflexivity. }
  split; [by apply Hnoop |].
  intros now'. apply Hnoop, startTracking_currentSite.
Qed.

Lemma startTracking_same_site_noop_witness :
  startTracking 45000 (Some axiom_site) tracking_axiom = tracking_axiom ∧
  lastUpdateTime (startTracking 45000 (Some axiom_site) tracking_axiom) = 0.
Proof.
  assert (hostname <$> currentSite tracking_axiom
          = hostname <$> Some axiom_site) as Hsame by reflexivity.
  destruct (startTracking_same_site_noop 45000 (Some axiom_site)
              tracking_axiom Hsame) as [Hnoop _].
  split; [exact Hnoop |]. rewrite Hnoop. reflexivity.
Defined.

(** Twice in a row from any state: the second call is the no-op. *)
Lemma startTracking_twice (t1 t2 : Z) (site : option TrackedSite) (w : World) :
  startTracking t2 site (startTracking t1 site w) = startTracking t1 site w.
Proof.
  unfold startTracking at 1.
  pose proof (startTracking_currentSite t1 site w) as H.
  apply same_hostname_true in H. rewrite H. reflexivity.
Qed.

(** ** [updateTime] with nothing to do *)

(** C7.  When less than one whole minute has passed since
    [lastUpdateTime], or when there is no current site, [updateTime]
    returns before its first [await]: the store, [lastUpdateTime] and every
    other part of the state are as before, and nothing is left pending. *)
Theorem updateTime_noop (now : Z) (w : World) :
  elapsedMinutes now w < 1 ∨ currentSite w = None →
  updateTime now w = w ∧
  (pending w = [] → flush now w = w).
Proof.
  intros Hcase.
  assert (updateTime now w = w) as Hsync.
  { unfold updateTime. destruct Hcase as [Hlt | ->]; [| reflexivity].
    destruct (currentSite w); [| reflexivity].
    destruct (Z.leb_spec 1 (elapsedMinutes now w)); [lia | reflexivity]. }
  split; [exact Hsync |].
  intros Hq. unfold flush, quiesce. rewrite Hsync, Hq. reflexivity.
Qed.

Lemma updateTime_noop_witness :
  elapsedMinutes 59999 tracking_axiom < 1 ∧
  updateTime 59999 tracking_axiom = tracking_axiom ∧
  flush 59999 tracking_axiom = tracking_axiom.
Proof.
  assert (elapsedMinutes 59999 tracking_axiom < 1) as Hlt by (vm_compute; reflexivity).
  destruct (updateTime_noop 59999 tracking_axiom (or_introl Hlt))
    as [Hsync Hflush].
  split; [exact Hlt |]. split; [exact Hsync |].
  apply Hflush. reflexivity.
Defined.

(** ** A flush that has whole minutes to store *)

Lemma credit_lookup (site : TrackedSite) (minutes : Z)
    (timeData : gmap string SiteTime) :
  credit site minutes timeData !! hostname site
  = Some (mkSiteTime
            (from_option entry_name (name site) (timeData !! hostname site))
            (total_in (hostname site) timeData + minutes)).
Proof.
  unfold credit, total_in.
  destruct (timeData !! hostname site) as [e |] eqn:He.
  - rewrite lookup_alter_eq, He. reflexivity.
  - rewrite lookup_alter_eq, lookup_insert_eq. reflexivity.
Qed.

Lemma credit_lookup_ne (site : TrackedSite) (minutes : Z)
    (timeData : gmap string SiteTime) (h : string) :
  h ≠ hostname site →
  credit site minutes timeData !! h = timeData !! h.
Proof.
  intros Hne. unfold credit.
  rewrite lookup_alter_ne by congruence.
  destruct (timeData !! hostname site); [reflexivity |].
  rewrite lookup_insert_ne by congruence. reflexivity.
Qed.

Lemma total_in_credit (site : TrackedSite) (minutes : Z)
    (timeData : gmap string SiteTime) (h : string) :
  total_in h (credit site minutes timeData)
  = total_in h timeData + (if decide (h = hostname site) then minutes else 0).
Proof.
  unfold total_in at 1. destruct (decide (h = hostname site)) as [-> | Hne].
  - rewrite credit_lookup. reflexivity.
  - rewrite credit_lookup_ne by assumption. fold (total_in h timeData). lia.
Qed.

(** What a flush on its own leaves behind when it has minutes to store. *)
Lemma flush_stores (now : Z) (w : World) (site : TrackedSite) :
  pending w = [] →
  currentSite w = Some site →
  1 ≤ elapsedMinutes now w →
  flush now w
  = set_lastUpdateTime now
      (set_stored_timeData
         (Some (credit site (elapsedMinutes now w)
                       (default ∅ (stored_timeData w)))) w).
Proof.
  intros Hq Hsite Hmin.
  unfold flush, updateTime. rewrite Hsite.
  destruct (Z.leb_spec 1 (elapsedMinutes now w)); [| lia].
  destruct w; cbn in Hq, Hsite |- *; subst.
  reflexivity.
Qed.

(** C6.  In an active session, a flush on its own that finds [n] whole
    minutes elapsed, [n = floor ((now - lastUpdateTime) / 60000)], raises
    the stored total of the current site's hostname by exactly [n]; with
    [n >= 1] the site has an entry afterwards, created from zero under the
    site's name when there was none; no other hostname changes. *)
Theorem flush_adds_elapsed_minutes (now : Z) (w : World)
    (site : TrackedSite) :
  pending w = [] →
  currentSite w = Some site →
  0 ≤ elapsedMinutes now w →
  total_of (hostname site) (flush now w)
  = total_of (hostname site) w + (now - lastUpdateTime w) / 60000 ∧
  (1 ≤ elapsedMinutes now w →
   ∃ timeData,
     stored_timeData (flush now w) = Some timeData ∧
     timeData !! hostname site
     = Some (mkSiteTime
               (from_option entry_name (name site)
                  (default ∅ (stored_timeData w) !! hostname site))
               (total_of (hostname site) w + elapsedMinutes now w))) ∧
  (∀ h, h ≠ hostname site → total_of h (flush now w) = total_of h w).
Proof.
  intros Hq Hsite Hmin.
  fold (elapsedMinutes now w).
  destruct (decide (1 ≤ elapsedMinutes now w)) as [Hone | Hzero].
  - rewrite (flush_stores now w site Hq Hsite Hone).
    unfold total_of.
    cbn [stored_timeData set_lastUpdateTime set_stored_timeData
         from_option id].
    split; [| split].
    + rewrite total_in_credit. rewrite decide_True by reflexivity.
      reflexivity.
    + intros _. eexists. split; [reflexivity |]. apply credit_lookup.
    + intros h Hne. rewrite total_in_credit.
      rewrite decide_False by assumption. lia.
  - assert (flush now w = w) as ->.
    { unfold flush, updateTime. rewrite Hsite.
      destruct (Z.leb_spec 1 (elapsedMinutes now w)); [lia |].
      unfold quiesce. rewrite Hq. reflexivity. }
    split; [lia |]. split; [lia | reflexivity].
Qed.

(** Twenty-five minutes (and a bit less than a twenty-sixth) after the
    session began: 5 stored minutes become 30. *)
Lemma flush_adds_elapsed_minutes_witness :
  elapsedMinutes 1559999 tracking_axiom = 25 ∧
  total_of "axiom.trade" (flush 1559999 tracking_axiom) = 5 + 25.
Proof.
  split; [reflexivity |].
  pose proof (flush_adds_elapsed_minutes 1559999 tracking_axiom axiom_site
                eq_refl eq_refl) as H.
  destruct H as [Hadd _].
  - vm_compute. discriminate.
  - exact Hadd.
Defined.

(** C1, as the code has it.  A flush on its own that stores minutes sets
    [lastUpdateTime] to [now], the time it read when it began; the part of
    the interval beyond the whole minutes is not carried over. *)
Theorem flush_sets_lastUpdateTime_to_now (now : Z) (w : World)
    (site : TrackedSite) :
  pending w = [] →
  currentSite w = Some site →
  1 ≤ elapsedMinutes now w →
  lastUpdateTime (flush now w) = now.
Proof.
  intros Hq Hsite Hmin.
  rewrite (flush_stores now w site Hq Hsite Hmin). reflexivity.
Qed.

Lemma flush_sets_lastUpdateTime_to_now_witness :
  1 ≤ elapsedMinutes 90000 tracking_axiom ∧
  lastUpdateTime (flush 90000 tracking_axiom) = 90000.
Proof.
  assert (1 ≤ elapsedMinutes 90000 tracking_axiom) as Hmin
    by (vm_compute; discriminate).
  split; [exact Hmin |].
  exact (flush_sets_lastUpdateTime_to_now 90000 tracking_axiom axiom_site
           eq_refl eq_refl Hmin).
Defined.

(** Ninety seconds into the session one minute is stored, and
    [lastUpdateTime] moves by ninety seconds, not by sixty. *)
Lemma flush_drops_remainder :
  pending tracking_axiom = [] ∧
  currentSite tracking_axiom = Some axiom_site ∧
  elapsedMinutes 90000 tracking_axiom = 1 ∧
  lastUpdateTime (flush 90000 tracking_axiom)
  ≠ lastUpdateTime tracking_axiom
    + elapsedMinutes 90000 tracking_axiom * 60000.
Proof.
  split; [reflexivity |]. split; [reflexivity |]. split; [reflexivity |].
  vm_compute. discriminate.
Qed.

(** ** Suspended functions run out *)

Lemma queue_weight_app (q1 q2 : list Task) :
  queue_weight (q1 ++ q2) = (queue_weight q1 + queue_weight q2)%nat.
Proof.
  unfold queue_weight.
  induction q1 as [| t q1 IH]; cbn [app foldr]; [reflexivity |].
  rewrite IH. lia.
Qed.

(** A segment leaves the rest of the queue alone and appends at most one
    successor, which is lighter than the task that ran. *)
Lemma run_task_pending (t : Task) (w : World) :
  ∃ succ, pending (run_task t w) = pending w ++ succ ∧
          (queue_weight succ < task_weight t)%nat.
Proof.
  destruct t as [now m | now | | settings |]; cbn [run_task].
  - unfold updateTime_afterGet. destruct (currentSite w).
    + exists [UpdateTime_afterSet now]. split; [reflexivity | cbn; lia].
    + exists []. split; [cbn; by rewrite app_nil_r | cbn; lia].
  - exists []. split; [cbn; by rewrite app_nil_r | cbn; lia].
  - unfold initializeStorage_afterGet, initializeStorage_settings.
    destruct (stored_timeData w).
    + destruct (stored_settings w).
      * exists []. split; [cbn; by rewrite app_nil_r | cbn; lia].
      * exists [Init_afterSetSettings]. split; [reflexivity | cbn; lia].
    + eexists [Init_afterSetTimeData _]. split; [reflexivity | cbn; lia].
  - unfold initializeStorage_settings. destruct settings.
    + exists []. split; [cbn; by rewrite app_nil_r | cbn; lia].
    + exists [Init_afterSetSettings]. split; [reflexivity | cbn; lia].
  - exists []. split; [cbn; by rewrite app_nil_r | cbn; lia].
Qed.

Lemma resume_weight (w : World) :
  pending w ≠ [] →
  (queue_weight (pending (resume w)) < queue_weight (pending w))%nat.
Proof.
  unfold resume. destruct (pending w) as [| t rest] eqn:Hq; [done |].
  intros _.
  destruct (run_task_pending t (set_pending rest w)) as (succ & -> & Hlt).
  cbn [pending set_pending]. rewrite queue_weight_app.
  cbn [queue_weight foldr]. fold (queue_weight rest). lia.
Qed.

Lemma drain_quiescent (fuel : nat) (w : World) :
  (queue_weight (pending w) ≤ fuel)%nat →
  pending (drain fuel w) = [].
Proof.
  revert w. induction fuel as [| fuel IH]; intros w Hfuel.
  - cbn [drain]. destruct (pending w) as [| t rest]; [reflexivity |].
    destruct t; cbn in Hfuel; lia.
  - cbn [drain]. destruct (pending w) as [| t rest] eqn:Hq; [exact Hq |].
    apply IH.
    assert (pending w ≠ []) as Hne by (rewrite Hq; discriminate).
    pose proof (resume_weight w Hne) as Hlt. rewrite Hq in Hlt. lia.
Qed.

(** [quiesce] does empty the queue: every suspended function reaches its
    end. *)
Lemma quiesce_pending (w : World) : pending (quiesce w) = [].
Proof. apply drain_quiescent. reflexivity. Qed.

(** ** What each part of the controller leaves alone *)

Lemma run_task_session (t : Task) (w : World) :
  session (run_task t w) = session w.
Proof.
  destruct t; cbn [run_task]; try reflexivity.
  - unfold updateTime_afterGet. destruct (currentSite w) eqn:H; [| reflexivity].
    unfold session. cbn. by rewrite H.
  - unfold initializeStorage_afterGet, initializeStorage_settings.
    destruct (stored_timeData w); [| reflexivity].
    destruct (stored_settings w); reflexivity.
  - unfold initializeStorage_settings. destruct settings; reflexivity.
Qed.

Lemma resume_session (w : World) : session (resume w) = session w.
Proof.
  unfold resume. destruct (pending w); [reflexivity |].
  rewrite run_task_session. reflexivity.
Qed.

Lemma drain_session (fuel : nat) (w : World) :
  session (drain fuel w) = session w.
Proof.
  revert w. induction fuel as [| fuel IH]; intros w; [reflexivity |].
  cbn [drain]. destruct (pending w); [reflexivity |].
  rewrite IH. apply resume_session.
Qed.

Lemma updateTime_session (now : Z) (w : World) :
  session (updateTime now w) = session w.
Proof.
  unfold updateTime. destruct (currentSite w); [| reflexivity].
  destruct (1 <=? elapsedMinutes now w); reflexivity.
Qed.

Lemma updateTime_stored (now : Z) (w : World) :
  stored_timeData (updateTime now w) = stored_timeData w.
Proof.
  unfold updateTime. destruct (currentSite w); [| reflexivity].
  destruct (1 <=? elapsedMinutes now w); reflexivity.
Qed.

Lemma stopTracking_stored (now : Z) (w : World) :
  stored_timeData (stopTracking now w) = stored_timeData w.
Proof.
  unfold stopTracking. cbn [stored_timeData set_currentSite].
  destruct (intervalId w); cbn [currentSite clearInterval];
    destruct (currentSite w); rewrite ?updateTime_stored; reflexivity.
Qed.

Lemma startTracking_stored (now : Z) (site : option TrackedSite) (w : World) :
  stored_timeData (startTracking now site w) = stored_timeData w.
Proof.
  unfold startTracking. destruct (same_hostname (currentSite w) site);
    [reflexivity |].
  destruct site; cbn [stored_timeData setInterval set_lastUpdateTime
                      set_currentSite]; apply stopTracking_stored.
Qed.

Lemma total_in_initialData (h : string) : total_in h initialData = 0.
Proof.
  unfold total_in, initialData, TRACKED_SITES. cbn [foldl hostname name].
  repeat (rewrite lookup_insert; case_decide; [reflexivity |]).
  rewrite lookup_empty. reflexivity.
Qed.

Lemma total_in_empty (h : string) : total_in h ∅ = 0.
Proof. unfold total_in. rewrite lookup_empty. reflexivity. Qed.

(** What one segment does to the stored total of a hostname. *)
Lemma run_task_total (t : Task) (w : World) (h : string) :
  total_of h (run_task t w)
  = total_of h w +
    match t, currentSite w with
    | UpdateTime_afterGet _ minutes, Some site =>
        if decide (h = hostname site) then minutes else 0
    | _, _ => 0
    end.
Proof.
  unfold total_of.
  destruct t as [now m | now | | settings |]; cbn [run_task].
  - unfold updateTime_afterGet. destruct (currentSite w) as [site |].
    + cbn [stored_timeData suspend set_pending set_stored_timeData
           from_option id].
      apply total_in_credit.
    + cbn. lia.
  - cbn. lia.
  - unfold initializeStorage_afterGet, initializeStorage_settings.
    destruct (stored_timeData w) as [td |] eqn:Htd.
    + destruct (stored_settings w); cbn; rewrite Htd; cbn; lia.
    + cbn. rewrite total_in_initialData, total_in_empty. lia.
  - unfold initializeStorage_settings. destruct settings; cbn; lia.
  - cbn. lia.
Qed.

Lemma resume_total_other (w : World) (h : string) :
  hostname <$> currentSite w ≠ Some h →
  total_of h (resume w) = total_of h w.
Proof.
  intros Hother. unfold resume. destruct (pending w) as [| t rest]; [reflexivity |].
  rewrite run_task_total. cbn [currentSite set_pending].
  replace (total_of h (set_pending rest w)) with (total_of h w) by reflexivity.
  destruct t; try lia.
  destruct (currentSite w) as [site |]; [| lia].
  rewrite decide_False; [lia |]. intros ->. by apply Hother.
Qed.

Lemma drain_total_other (fuel : nat) (w : World) (h : string) :
  hostname <$> currentSite w ≠ Some h →
  total_of h (drain fuel w) = total_of h w.
Proof.
  revert w. induction fuel as [| fuel IH]; intros w Hother; [reflexivity |].
  cbn [drain]. destruct (pending w) eqn:Hq; [reflexivity |].
  rewrite IH.
  - by apply resume_total_other.
  - pose proof (resume_session w) as Hs. injection Hs as -> _ _. exact Hother.
Qed.

(** With the session on another site, or on none, no flush adds to [h]. *)
Lemma flush_total_other (now : Z) (w : World) (h : string) :
  hostname <$> currentSite w ≠ Some h →
  total_of h (flush now w) = total_of h w.
Proof.
  intros Hother. unfold flush, quiesce. rewrite drain_total_other.
  - unfold total_of. rewrite updateTime_stored. reflexivity.
  - pose proof (updateTime_session now w) as Hs. injection Hs as -> _ _.
    exact Hother.
Qed.

(** ** The final update of [stopTracking] *)

(** [stopTracking] calls [updateTime] without waiting for it, and clears
    [currentSite] as soon as the call returns, at the first [await].  When
    the rest of [updateTime] runs, [currentSite.hostname] is read from
    [null]: the function throws and the store is as it was. *)
Lemma stopTracking_stores_nothing (now : Z) (w : World) :
  pending w = [] →
  stored_timeData (quiesce (stopTracking now w)) = stored_timeData w ∧
  currentSite (quiesce (stopTracking now w)) = None.
Proof.
  intros Hq. unfold stopTracking, updateTime.
  destruct w as [tab cur last iid ep tm nxt td st q rej].
  cbn in Hq. subst q.
  destruct iid, cur; cbn; try (split; reflexivity);
    destruct (1 <=? elapsedMinutes now _); split; reflexivity.
Qed.

(** On a switch, [startTracking] has set [currentSite] to the new site by
    the time the rest of [updateTime] runs: the minutes of the old session
    go to the new site. *)
Lemma startTracking_credits_new_site (now : Z) (w : World)
    (old new : TrackedSite) :
  pending w = [] →
  currentSite w = Some old →
  hostname old ≠ hostname new →
  1 ≤ elapsedMinutes now w →
  stored_timeData (quiesce (startTracking now (Some new) w))
  = Some (credit new (elapsedMinutes now w) (default ∅ (stored_timeData w))).
Proof.
  intros Hq Hcur Hne Hmin.
  unfold startTracking, same_hostname. rewrite Hcur.
  rewrite bool_decide_eq_false_2 by (cbn; congruence).
  unfold stopTracking, updateTime.
  destruct w as [tab cur last iid ep tm nxt td st q rej].
  cbn in Hq, Hcur. subst q cur.
  unfold elapsedMinutes in *. cbn [lastUpdateTime] in Hmin.
  apply Z.leb_le in Hmin.
  destruct iid; cbn [intervalId currentSite lastUpdateTime clearInterval];
    rewrite Hmin; reflexivity.
Qed.

(** C2, at a session on axiom.trade that is two minutes old, with five
    minutes stored.  Stopping stores nothing: the final update ends in an
    unhandled rejection.  Switching to gmgn.ai stores the two minutes
    under gmgn.ai, and none under axiom.trade. *)
Theorem stopTracking_final_update_misses_old_site :
  elapsedMinutes 120000 tracking_axiom = 2 ∧
  total_of "axiom.trade" (quiesce (stopTracking 120000 tracking_axiom)) = 5 ∧
  unhandledRejections (quiesce (stopTracking 120000 tracking_axiom)) = 1%nat ∧
  total_of "axiom.trade"
    (quiesce (startTracking 120000 (Some gmgn_site) tracking_axiom)) = 5 ∧
  total_of "gmgn.ai"
    (quiesce (startTracking 120000 (Some gmgn_site) tracking_axiom)) = 2.
Proof. vm_compute. repeat split; reflexivity. Qed.

(** ** The [updateEnabledPlatforms] message *)

Lemma stopTracking_currentSite (now : Z) (w : World) :
  currentSite (stopTracking now w) = None.
Proof. reflexivity. Qed.

Lemma stopTracking_enabledPlatforms (now : Z) (w : World) :
  enabledPlatforms (stopTracking now w) = enabledPlatforms w.
Proof.
  unfold stopTracking, updateTime.
  destruct (intervalId w); cbn [currentSite clearInterval];
    destruct (currentSite w); try reflexivity;
    match goal with |- context [1 <=? ?e] => destruct (1 <=? e) end;
    reflexivity.
Qed.

Lemma startTracking_enabledPlatforms (now : Z) (site : option TrackedSite)
    (w : World) :
  enabledPlatforms (startTracking now site w) = enabledPlatforms w.
Proof.
  unfold startTracking. destruct (same_hostname (currentSite w) site);
    [reflexivity |].
  destruct site; cbn [enabledPlatforms setInterval set_lastUpdateTime
                      set_currentSite]; apply stopTracking_enabledPlatforms.
Qed.

(** A call that does change the site: the new site is current, its
    session starts at [now], and a timer is armed for it. *)
Lemma startTracking_starts (now : Z) (site : TrackedSite) (w : World) :
  hostname <$> currentSite w ≠ Some (hostname site) →
  currentSite (startTracking now (Some site) w) = Some site ∧
  lastUpdateTime (startTracking now (Some site) w) = now ∧
  ∃ i, intervalId (startTracking now (Some site) w) = Some i ∧
       i ∈ timers (startTracking now (Some site) w).
Proof.
  intros Hother. unfold startTracking, same_hostname.
  rewrite bool_decide_eq_false_2 by exact Hother.
  split; [reflexivity |]. split; [reflexivity |].
  eexists. split; [reflexivity |]. cbn [timers setInterval]. apply list_elem_of_here.
Qed.

(** The listener when the query returns a tab. *)
Lemma onMessage_with_tab
    (URL_hostname : string → completion string)
    (newMap : gmap string bool) (tab : Tab) (now : Z) (w : World) :
  let w' := onMessage URL_hostname (UpdateEnabledPlatforms newMap)
              (Some tab) now w in
  enabledPlatforms w' = newMap ∧
  (∀ tracked,
      currentSite w = Some tracked →
      newMap !! hostname tracked ≠ Some true →
      hostname <$> currentSite w' ≠ Some (hostname tracked) ∧
      ∀ later, total_of (hostname tracked) (flush later w')
               = total_of (hostname tracked) w) ∧
  (∀ site,
      getTrackedSite URL_hostname newMap (tab_url tab) = Some site →
      hostname <$> currentSite w ≠ Some (hostname site) →
      currentSite w' = Some site ∧
      lastUpdateTime w' = now ∧
      ∃ i, intervalId w' = Some i ∧ i ∈ timers w').
Proof.
  cbn zeta. unfold onMessage, recheck_current_tab.
  cbn [enabledPlatforms set_enabledPlatforms currentSite].
  set (w1 := set_enabledPlatforms newMap w).
  destruct (getTrackedSite URL_hostname newMap (tab_url tab))
    as [site |] eqn:Hsite.
  - apply getTrackedSite_Some in Hsite as (u & _ & _ & _ & _ & Hon).
    assert (∀ tracked, newMap !! hostname tracked ≠ Some true →
                       hostname tracked ≠ hostname site) as Hne.
    { intros tracked Hoff Heq. rewrite Heq in Hoff. contradiction. }
    destruct (same_hostname (currentSite w) (Some site)) eqn:Hsame.
    + apply same_hostname_true in Hsame.
      split; [reflexivity |]. split.
      * intros tracked Hcur Hoff. exfalso.
        rewrite Hcur in Hsame. cbn in Hsame.
        apply (Hne tracked Hoff). congruence.
      * intros s [= <-] Hother. contradiction.
    + split; [apply startTracking_enabledPlatforms |]. split.
      * intros tracked Hcur Hoff.
        assert (hostname <$> currentSite (startTracking now (Some site) w1)
                ≠ Some (hostname tracked)) as Hnow.
        { rewrite startTracking_currentSite. cbn.
          intros [= Heq]. by apply (Hne tracked Hoff). }
        split; [exact Hnow |].
        intros later. rewrite flush_total_other by exact Hnow.
        unfold total_of. rewrite startTracking_stored. reflexivity.
      * intros s [= <-] Hother. by apply startTracking_starts.
  - split; [apply stopTracking_enabledPlatforms |]. split.
    + intros tracked Hcur Hoff.
      split; [rewrite stopTracking_currentSite; discriminate |].
      intros later. rewrite flush_total_other
        by (rewrite stopTracking_currentSite; discriminate).
      unfold total_of. rewrite stopTracking_stored. reflexivity.
    + intros s [=].
Qed.




(** ** Properties of every step *)

Section StepInvariant.

Variable URL_hostname : string → completion string.
Variable P : World → Prop.

Hypothesis P_activeTabId : ∀ v w, P w → P (set_activeTabId v w).
Hypothesis P_enabledPlatforms : ∀ v w, P w → P (set_enabledPlatforms v w).
Hypothesis P_updateTime : ∀ now w, P w → P (updateTime now w).
Hypothesis P_stopTracking : ∀ now w, P w → P (stopTracking now w).
Hypothesis P_startTracking : ∀ now site w, P w → P (startTracking now site w).
Hypothesis P_initializeStorage : ∀ w, P w → P (initializeStorage w).

Lemma listener_preserves (ev : Event) (w : World) :
  is_listener ev → P w → P (step URL_hostname ev w).
Proof.
  intros Hev Hw. destruct ev as [id now | | tab minimized now
    | tabId url now | focused now | message tabs0 now | | tabs0 now | c];
    cbn [step]; try contradiction.
  - destruct (bool_decide (id ∈ timers w)); auto.
  - unfold onActivated_2, onActivated_1. destruct minimized; auto.
  - unfold onUpdated. destruct (_ && _); auto.
  - unfold onFocusChanged. destruct focused as [[tab |] |]; auto.
  - unfold onMessage, recheck_current_tab. destruct message; [| assumption].
    destruct tabs0 as [tab |]; [| auto].
    destruct (getTrackedSite _ _ _); [| auto].
    destruct (same_hostname _ _); auto.
  - auto.
  - unfold onLoad_query. destruct tabs0; auto.
Qed.

Hypothesis P_resume : ∀ w, P w → P (resume w).
Hypothesis P_resetAllData : ∀ c w, P w → P (resetAllData c w).

Lemma step_preserves (ev : Event) (w : World) :
  P w → P (step URL_hostname ev w).
Proof.
  intros Hw. destruct ev; try (by apply listener_preserves); cbn [step]; auto.
Qed.

Hypothesis P_initial : ∀ now timeData settings, P (initial now timeData settings).

Lemma reachable_invariant (w : World) : reachable URL_hostname w → P w.
Proof.
  induction 1 as [now timeData settings | ev w _ IH].
  - apply P_initial.
  - by apply step_preserves.
Qed.

End StepInvariant.

(** *** The stored totals never go down *)

Lemma updateTime_pending_ok (now : Z) (w : World) :
  pending_ok w → pending_ok (updateTime now w).
Proof.
  unfold pending_ok, updateTime. intros Hw.
  destruct (currentSite w); [| assumption].
  destruct (Z.leb_spec 1 (elapsedMinutes now w)); [| assumption].
  cbn [pending suspend set_pending]. apply Forall_app. split; [assumption |].
  by apply Forall_singleton.
Qed.

Lemma stopTracking_pending_ok (now : Z) (w : World) :
  pending_ok w → pending_ok (stopTracking now w).
Proof.
  intros Hw. unfold stopTracking.
  set (w1 := match intervalId w with
             | Some i => clearInterval i w
             | None => w
             end).
  assert (pending_ok w1) as Hw1
    by (subst w1; destruct (intervalId w); exact Hw).
  change (pending_ok (match currentSite w1 with
                      | Some _ => updateTime now w1
                      | None => w1
                      end)).
  destruct (currentSite w1); [by apply updateTime_pending_ok | exact Hw1].
Qed.

Lemma startTracking_pending_ok (now : Z) (site : option TrackedSite)
    (w : World) :
  pending_ok w → pending_ok (startTracking now site w).
Proof.
  intros Hw. unfold startTracking.
  destruct (same_hostname (currentSite w) site); [assumption |].
  pose proof (stopTracking_pending_ok now w Hw) as Hstop.
  destruct site; exact Hstop.
Qed.

Lemma run_task_pending_ok (t : Task) (w : World) :
  pending_ok w → pending_ok (run_task t w).
Proof.
  unfold pending_ok. intros Hw.
  destruct t as [now m | now | | settings |]; cbn [run_task].
  - unfold updateTime_afterGet. destruct (currentSite w); [| assumption].
    cbn [pending suspend set_pending set_stored_timeData].
    apply Forall_app. split; [assumption | by apply Forall_singleton].
  - assumption.
  - unfold initializeStorage_afterGet, initializeStorage_settings.
    destruct (stored_timeData w); [destruct (stored_settings w) |];
      try assumption;
      cbn [pending suspend set_pending set_stored_timeData set_stored_settings];
      (apply Forall_app; split; [assumption | by apply Forall_singleton]).
  - unfold initializeStorage_settings. destruct settings; [assumption |].
    cbn [pending suspend set_pending set_stored_settings].
    apply Forall_app. split; [assumption | by apply Forall_singleton].
  - assumption.
Qed.

Lemma resume_pending_ok (w : World) : pending_ok w → pending_ok (resume w).
Proof.
  intros Hw. unfold resume. destruct (pending w) as [| t rest] eqn:Hq;
    [assumption |].
  apply run_task_pending_ok. unfold pending_ok in *.
  rewrite Hq in Hw. cbn [pending set_pending]. by apply Forall_cons in Hw as [_ ?].
Qed.

Lemma reachable_pending_ok (URL_hostname : string → completion string)
    (w : World) :
  reachable URL_hostname w → pending_ok w.
Proof.
  apply reachable_invariant.
  - intros v w' H; exact H.
  - intros v w' H; exact H.
  - apply updateTime_pending_ok.
  - apply stopTracking_pending_ok.
  - apply startTracking_pending_ok.
  - intros w' H. unfold pending_ok, initializeStorage in *.
    cbn [pending suspend set_pending].
    apply Forall_app. split; [assumption | by apply Forall_singleton].
  - apply resume_pending_ok.
  - intros c w' H. destruct c; exact H.
  - intros now timeData settings. apply Forall_nil_2.
Qed.

(** The listeners do not write [timeData]. *)
Lemma listener_stored (URL_hostname : string → completion string)
    (ev : Event) (w : World) :
  is_listener ev →
  stored_timeData (step URL_hostname ev w) = stored_timeData w.
Proof.
  intros Hev.
  apply (listener_preserves URL_hostname
           (λ w', stored_timeData w' = stored_timeData w)); auto.
  - intros now w' <-. apply updateTime_stored.
  - intros now w' <-. apply stopTracking_stored.
  - intros now site w' <-. apply startTracking_stored.
Qed.

Lemma total_in_resetData (h : string) : total_in h resetData = 0.
Proof.
  unfold total_in, resetData.
  repeat (rewrite lookup_insert; case_decide; [reflexivity |]).
  rewrite lookup_empty. reflexivity.
Qed.

Lemma reachable_run (URL_hostname : string → completion string)
    (evs : list Event) (w : World) :
  reachable URL_hostname w → reachable URL_hostname (run URL_hostname evs w).
Proof.
  revert w. induction evs as [| ev evs IH]; intros w Hw; [exact Hw |].
  cbn [run foldl]. apply IH. by apply reachable_step.
Qed.

(** The example session is a state of the controller: the script is
    loaded at time 0 on an axiom.trade tab, with five minutes in the
    store. *)
Lemma tracking_axiom_reachable : reachable sample_URL_hostname tracking_axiom.
Proof.
  change tracking_axiom
    with (step sample_URL_hostname
            (EvLoadQuery (Some (mkTab 7 (Some "https://axiom.trade/"))) 0)
            (initial 0 (Some (<["axiom.trade" := mkSiteTime "Axiom" 5]> ∅))
                     (Some DEFAULT_SETTINGS))).
  apply reachable_step, reachable_initial.
Qed.

(** **** With the answers of [get] fixed when the call is issued *)






(** With the answer of now, a call does what the suspended function does
    when it reads the store as it resumes. *)
Lemma run_call_current (c : Call) (w : World) :
  call_timeData c = stored_timeData w →
  call_settings c = stored_settings w →
  run_call c w = run_task (call_task c) w.
Proof.
  destruct c as [t td st]. cbn [call_task call_timeData call_settings].
  intros -> ->. destruct t; reflexivity.
Qed.





(** *** A timer is armed exactly while a session is active *)

Lemma timer_matches_session_proper (w w' : World) :
  session w' = session w →
  timer_matches_session w → timer_matches_session w'.
Proof.
  unfold session, timer_matches_session. intros [= -> -> ->]. auto.
Qed.

Lemma stopTracking_session (now : Z) (w : World) :
  timer_matches_session w →
  session (stopTracking now w) = (None, None, []).
Proof.
  intros [_ Htimers]. unfold stopTracking.
  set (w1 := match intervalId w with
             | Some i => clearInterval i w
             | None => w
             end).
  assert (intervalId w1 = None ∧ timers w1 = []) as [Hid Htm].
  { subst w1. destruct (intervalId w) as [i |] eqn:Hi.
    - split; [reflexivity |]. cbn [timers clearInterval].
      change (option_list (Some i)) with [i] in Htimers. rewrite Htimers.
      rewrite filter_cons_False by (intros Hne; by apply Hne).
      apply filter_nil.
    - split; [exact Hi | exact Htimers]. }
  set (w2 := match currentSite w1 with
             | Some _ => updateTime now w1
             | None => w1
             end).
  assert (session w2 = session w1) as Hs.
  { subst w2. destruct (currentSite w1); [apply updateTime_session | reflexivity]. }
  unfold session in *. cbn [currentSite intervalId timers set_currentSite].
  injection Hs as _ -> ->. rewrite Hid, Htm. reflexivity.
Qed.

Lemma stopTracking_idle (now : Z) (w : World) :
  timer_matches_session w →
  intervalId (stopTracking now w) = None ∧ timers (stopTracking now w) = [].
Proof.
  intros Hw. pose proof (stopTracking_session now w Hw) as Hs. split.
  - exact (f_equal (λ s, s.1.2) Hs).
  - exact (f_equal (λ s, s.2) Hs).
Qed.

Lemma stopTracking_timer (now : Z) (w : World) :
  timer_matches_session w → timer_matches_session (stopTracking now w).
Proof.
  intros Hw. destruct (stopTracking_idle now w Hw) as [Hi Ht].
  unfold timer_matches_session.
  rewrite Hi, Ht, stopTracking_currentSite.
  split; [| reflexivity]. split; intros [? [=]].
Qed.

Lemma startTracking_timer (now : Z) (site : option TrackedSite) (w : World) :
  timer_matches_session w → timer_matches_session (startTracking now site w).
Proof.
  intros Hw. unfold startTracking.
  destruct (same_hostname (currentSite w) site); [exact Hw |].
  destruct (stopTracking_idle now w Hw) as [Hi Ht].
  unfold timer_matches_session.
  destruct site as [s |];
    cbn [currentSite intervalId timers setInterval set_lastUpdateTime
         set_currentSite nextTimerId].
  - rewrite Ht. split; [| reflexivity]. split; intros _; eauto.
  - rewrite Hi, Ht. split; [| reflexivity]. split; intros [? [=]].
Qed.

Lemma reachable_timer (URL_hostname : string → completion string)
    (w : World) :
  reachable URL_hostname w → timer_matches_session w.
Proof.
  apply reachable_invariant.
  - intros v w' H; exact H.
  - intros v w' H; exact H.
  - intros now w'. apply timer_matches_session_proper, updateTime_session.
  - apply stopTracking_timer.
  - apply startTracking_timer.
  - intros w' H; exact H.
  - intros w'. apply timer_matches_session_proper, resume_session.
  - intros c w' H. destruct c; exact H.
  - intros now timeData settings. split; [| reflexivity].
    split; intros [? [=]].
Qed.

(** C10.  In every state the controller can reach, after a call of
    [startTracking] or of [stopTracking] the timer handle [intervalId] is
    set exactly when [currentSite] is set, and the timers armed in the host
    are that handle and nothing else: none keeps firing after tracking
    stopped, none is missing while a site is tracked. *)
Theorem timer_armed_iff_tracking
    (URL_hostname : string → completion string) (w : World) :
  reachable URL_hostname w →
  ∀ (now : Z) (site : option TrackedSite),
    ((is_Some (intervalId (startTracking now site w))
      ↔ is_Some (currentSite (startTracking now site w))) ∧
     timers (startTracking now site w)
     = option_list (intervalId (startTracking now site w))) ∧
    ((is_Some (intervalId (stopTracking now w))
      ↔ is_Some (currentSite (stopTracking now w))) ∧
     timers (stopTracking now w)
     = option_list (intervalId (stopTracking now w))).
Proof.
  intros Hreach now site.
  pose proof (reachable_timer URL_hostname w Hreach) as Hw.
  split.
  - exact (startTracking_timer now site w Hw).
  - exact (stopTracking_timer now w Hw).
Qed.

(** After a switch from axiom.trade to gmgn.ai (both enabled), one timer
    is armed; after a stop, none. *)
Lemma timer_armed_iff_tracking_witness :
  let w := run sample_URL_hostname
             [EvLoadQuery (Some (mkTab 7 (Some "https://axiom.trade/"))) 0;
              EvTimer 1 60000]
             (initial 0 None None) in
  timers (startTracking 70000 (Some gmgn_site) w)
  = option_list (intervalId (startTracking 70000 (Some gmgn_site) w)) ∧
  timers (stopTracking 70000 w) = [].
Proof.
  intros w.
  assert (reachable sample_URL_hostname w) as Hreach.
  { apply reachable_run, reachable_initial. }
  destruct (timer_armed_iff_tracking sample_URL_hostname w Hreach
              70000 (Some gmgn_site)) as [[_ Hstart] [_ Hstop]].
  split; [exact Hstart |].
  rewrite Hstop. reflexivity.
Defined.

(** * Further properties of the code *)

(** ** [formatTime] *)

(** X1.  For a total that is not negative, the hours and minutes that
    [formatTime] prints add up to the total, and the minutes are below
    sixty. *)
Theorem formatTime_parts (total : Z) :
  0 ≤ total →
  0 ≤ formatTime_hours total ∧
  0 ≤ formatTime_minutes total < 60 ∧
  60 * formatTime_hours total + formatTime_minutes total = total.
Proof.
  intros Hpos. unfold formatTime_hours, formatTime_minutes.
  rewrite Z.rem_mod_nonneg by lia.
  pose proof (Z.mod_pos_bound total 60 ltac:(lia)).
  pose proof (Z.div_mod total 60 ltac:(lia)).
  split; [apply Z.div_pos; lia |]. split; lia.
Qed.

Lemma formatTime_parts_witness :
  formatTime 125 = "2h 5m" ∧
  60 * formatTime_hours 125 + formatTime_minutes 125 = 125.
Proof.
  split; [reflexivity |].
  destruct (formatTime_parts 125) as (_ & _ & Hsum); [lia | exact Hsum].
Defined.

Lemma all_digits_app (s1 s2 : string) :
  all_digits s1 → all_digits s2 → all_digits (s1 +:+ s2).
Proof.
  induction s1 as [| c s1 IH]; cbn; [auto |].
  intros [Hc Hs1] Hs2. split; [exact Hc | by apply IH].
Qed.

Lemma pretty_N_char_digit (x : N) : is_digit (pretty_N_char x).
Proof.
  unfold is_digit, pretty_N_char.
  repeat case_match; rewrite !elem_of_cons; tauto.
Qed.

Lemma pretty_N_go_digits (x : N) (s : string) :
  all_digits s → all_digits (pretty_N_go x s).
Proof.
  revert s. induction (N.lt_wf_0 x) as [x _ IH]; intros s Hs.
  assert (x = 0 ∨ 0 < x)%N as [-> | Hx] by lia.
  - by rewrite pretty_N_go_0.
  - rewrite pretty_N_go_step by done. apply IH.
    + by apply N.div_lt.
    + split; [apply pretty_N_char_digit | exact Hs].
Qed.

Lemma pretty_Z_digits (x : Z) : 0 ≤ x → all_digits (pretty x).
Proof.
  intros Hx. destruct x as [| p | p]; [cbn | | lia].
  - split; [| exact I]. unfold is_digit. rewrite !elem_of_cons. tauto.
  - unfold pretty, pretty_Z, pretty, pretty_positive, pretty, pretty_N.
    case_decide; [discriminate |]. by apply pretty_N_go_digits.
Qed.

(** Two digit strings followed by the same mark that is no digit. *)
Lemma digits_before_mark (c : ascii) (a1 a2 b1 b2 : string) :
  ¬ is_digit c →
  all_digits a1 → all_digits a2 →
  a1 +:+ String c b1 = a2 +:+ String c b2 →
  a1 = a2 ∧ b1 = b2.
Proof.
  intros Hc. revert a2.
  induction a1 as [| x a1 IH]; intros [| y a2]; cbn.
  - intros _ _ [= ->]. done.
  - intros _ [Hy _] [= <- _]. contradiction.
  - intros [Hx _] _ [= -> _]. contradiction.
  - intros [_ H1] [_ H2] [= -> Hrest].
    destruct (IH a2 H1 H2 Hrest) as [-> ->]. done.
Qed.

(** X2.  The text [formatTime] prints determines the total: two totals
    that are not negative and print alike are equal. *)
Theorem formatTime_inj (t1 t2 : Z) :
  0 ≤ t1 → 0 ≤ t2 →
  formatTime t1 = formatTime t2 → t1 = t2.
Proof.
  intros H1 H2. unfold formatTime, formatTime_hours, formatTime_minutes.
  rewrite !Z.rem_mod_nonneg by lia.
  pose proof (Z.mod_pos_bound t1 60 ltac:(lia)) as Hm1.
  pose proof (Z.mod_pos_bound t2 60 ltac:(lia)) as Hm2.
  pose proof (Z.div_mod t1 60 ltac:(lia)) as Hsum1.
  pose proof (Z.div_mod t2 60 ltac:(lia)) as Hsum2.
  assert (∀ c : ascii, c = "h"%char ∨ c = "m"%char → ¬ is_digit c)
    as Hmark.
  { intros c Hc. unfold is_digit. rewrite !elem_of_cons, elem_of_nil.
    destruct Hc as [-> | ->]; intros H;
      repeat (destruct H as [H | H]; [discriminate |]); exact H. }
  intros Heq.
  apply (digits_before_mark "h") in Heq as [Hh Hrest];
    [| by auto | apply pretty_Z_digits; apply Z.div_pos; lia..].
  injection Hrest as Hrest.
  apply (digits_before_mark "m") in Hrest as [Hm _];
    [| by auto | apply pretty_Z_digits; lia..].
  apply (inj pretty) in Hh. apply (inj pretty) in Hm. lia.
Qed.

Lemma formatTime_inj_witness :
  formatTime 125 = formatTime (2 * 60 + 5) ∧ 125 = 2 * 60 + 5.
Proof.
  split; [reflexivity |].
  apply (formatTime_inj 125 (2 * 60 + 5)); [lia | lia | reflexivity].
Defined.

(** ** [initializeStorage] *)

(** The state [initializeStorage] ends in when nothing else is suspended. *)
Lemma initialize_result (w : World) :
  pending w = [] →
  initialize w
  = set_enabledPlatforms
      (default DEFAULT_enabledPlatforms
         (settings_enabledPlatforms
            (default DEFAULT_SETTINGS (stored_settings w))))
      (set_stored_settings
         (Some (default DEFAULT_SETTINGS (stored_settings w)))
         (set_stored_timeData
            (Some (default initialData (stored_timeData w))) w)).
Proof.
  intros Hq. destruct w as [tab cur last iid ep tm nxt td st q rej].
  cbn in Hq. subst q.
  destruct td as [td |], st as [st |]; reflexivity.
Qed.

Lemma initialData_lookup (h : string) (e : SiteTime) :
  initialData !! h = Some e ↔
  ∃ site, site ∈ TRACKED_SITES ∧ hostname site = h ∧
          e = mkSiteTime (name site) 0.
Proof.
  unfold initialData, TRACKED_SITES. cbn [foldl hostname name]. split.
  - intros Hlook.
    rewrite lookup_insert in Hlook. case_decide as H1.
    { exists (mkSite "gmgn.ai" "Gmgn"). injection Hlook as <-.
      rewrite !elem_of_cons. auto. }
    rewrite lookup_insert in Hlook. case_decide as H2.
    { exists (mkSite "trade.padre.gg" "Terminal"). injection Hlook as <-.
      rewrite !elem_of_cons. auto. }
    rewrite lookup_insert in Hlook. case_decide as H3.
    { exists (mkSite "axiom.trade" "Axiom"). injection Hlook as <-.
      rewrite !elem_of_cons. auto. }
    by rewrite lookup_empty in Hlook.
  - intros (site & Hin & <- & ->).
    repeat (apply elem_of_cons in Hin as [-> | Hin]; [reflexivity |]).
    by apply elem_of_nil in Hin.
Qed.

(** X3.  [initializeStorage], run to its end, never overwrites totals that
    are stored: existing [timeData] stays as it is.  On a store without
    [timeData] it creates an entry for every site of [TRACKED_SITES], with
    the site's name and zero minutes, and no other entry.  It does not
    touch the session. *)
Theorem initializeStorage_timeData (w : World) :
  pending w = [] →
  (∀ timeData, stored_timeData w = Some timeData →
               stored_timeData (initialize w) = Some timeData) ∧
  (stored_timeData w = None →
   ∃ timeData,
     stored_timeData (initialize w) = Some timeData ∧
     ∀ h e, timeData !! h = Some e ↔
            ∃ site, site ∈ TRACKED_SITES ∧ hostname site = h ∧
                    e = mkSiteTime (name site) 0) ∧
  session (initialize w) = session w ∧
  lastUpdateTime (initialize w) = lastUpdateTime w.
Proof.
  intros Hq. rewrite (initialize_result w Hq).
  cbn [stored_timeData set_enabledPlatforms set_stored_settings
       set_stored_timeData].
  split; [| split; [| split; reflexivity]].
  - intros timeData ->. reflexivity.
  - intros ->. exists initialData. split; [reflexivity |].
    apply initialData_lookup.
Qed.

Lemma initializeStorage_timeData_witness :
  stored_timeData (initialize tracking_axiom)
  = Some (<["axiom.trade" := mkSiteTime "Axiom" 5]> ∅).
Proof.
  destruct (initializeStorage_timeData tracking_axiom eq_refl)
    as (Hkeep & _).
  apply Hkeep. reflexivity.
Defined.

(** X4.  After [initializeStorage] has run to its end the store holds
    settings: those it held before, or [DEFAULT_SETTINGS] when it held
    none.  The controller's [enabledPlatforms] is the map of the stored
    settings, or the default map when the stored settings have none. *)
Theorem initializeStorage_settings_loaded (w : World) :
  pending w = [] →
  ∃ settings,
    stored_settings (initialize w) = Some settings ∧
    (∀ s, stored_settings w = Some s → settings = s) ∧
    (stored_settings w = None → settings = DEFAULT_SETTINGS) ∧
    enabledPlatforms (initialize w)
    = default DEFAULT_enabledPlatforms (settings_enabledPlatforms settings).
Proof.
  intros Hq. rewrite (initialize_result w Hq).
  exists (default DEFAULT_SETTINGS (stored_settings w)).
  split; [reflexivity |]. split; [| split; [| reflexivity]].
  - intros s ->. reflexivity.
  - intros ->. reflexivity.
Qed.

Lemma initializeStorage_settings_loaded_witness :
  ∃ settings,
    stored_settings (initialize (initial 0 None None)) = Some settings ∧
    enabledPlatforms (initialize (initial 0 None None))
    = default DEFAULT_enabledPlatforms (settings_enabledPlatforms settings).
Proof.
  destruct (initializeStorage_settings_loaded (initial 0 None None) eq_refl)
    as (settings & Hstored & _ & _ & Hep).
  exists settings. split; assumption.
Defined.

(** X5.  [initializeStorage] is idempotent: a second run, after the first
    has ended, changes nothing. *)
Theorem initializeStorage_idempotent (w : World) :
  pending w = [] →
  initialize (initialize w) = initialize w.
Proof.
  intros Hq.
  rewrite (initialize_result (initialize w)) by apply quiesce_pending.
  rewrite (initialize_result w Hq).
  destruct w as [tab cur last iid ep tm nxt td st q rej].
  destruct td, st; reflexivity.
Qed.

Lemma initializeStorage_idempotent_witness :
  initialize (initialize (initial 0 None None))
  = initialize (initial 0 None None).
Proof. apply initializeStorage_idempotent. reflexivity. Defined.

(** X6.  Two calls of [initializeStorage] that overlap, as when the script
    is loaded and [onInstalled] or [onStartup] fires before the first call
    has ended, leave the state a single call leaves. *)
Theorem initializeStorage_overlapping (w : World) :
  pending w = [] →
  quiesce (initializeStorage (initializeStorage w)) = initialize w.
Proof.
  intros Hq. rewrite (initialize_result w Hq).
  destruct w as [tab cur last iid ep tm nxt td st q rej].
  cbn in Hq. subst q.
  destruct td as [td |], st as [st |]; reflexivity.
Qed.

Lemma initializeStorage_overlapping_witness :
  quiesce (initializeStorage (initializeStorage (initial 0 None None)))
  = initialize (initial 0 None None).
Proof. apply initializeStorage_overlapping. reflexivity. Defined.

(** ** Stopping twice, and the two [onActivated] listeners *)

Lemma stopTracking_intervalId (now : Z) (w : World) :
  intervalId (stopTracking now w) = None.
Proof.
  unfold stopTracking. cbn [intervalId set_currentSite].
  set (w1 := match intervalId w with
             | Some i => clearInterval i w
             | None => w
             end).
  assert (intervalId w1 = None) as Hw1.
  { subst w1. destruct (intervalId w) eqn:Hi; [reflexivity | exact Hi]. }
  destruct (currentSite w1); [| exact Hw1].
  rewrite <- Hw1. exact (f_equal (λ s, s.1.2) (updateTime_session now w1)).
Qed.

(** With nothing tracked and no handle, [stopTracking] does nothing. *)
Lemma stopTracking_idle_noop (now : Z) (w : World) :
  currentSite w = None → intervalId w = None → stopTracking now w = w.
Proof.
  intros Hcur Hid. unfold stopTracking. rewrite Hid, Hcur.
  destruct w; cbn in *; subst; reflexivity.
Qed.

(** X7.  [stopTracking] is idempotent: a second call, at any time, leaves
    the state the first call left; it starts no further update. *)
Theorem stopTracking_twice (t1 t2 : Z) (w : World) :
  stopTracking t2 (stopTracking t1 w) = stopTracking t1 w.
Proof.
  apply stopTracking_idle_noop.
  - apply stopTracking_currentSite.
  - apply stopTracking_intervalId.
Qed.

(** X8.  Both [chrome.tabs.onActivated] listeners run on every tab
    activation; the second one changes nothing the first has not done
    already. *)
Theorem onActivated_second_listener_noop
    (URL_hostname : string → completion string)
    (tab : Tab) (minimized : bool) (t1 t2 : Z) (w : World) :
  onActivated_2 URL_hostname tab minimized t2
    (onActivated_1 URL_hostname tab minimized t1 w)
  = onActivated_1 URL_hostname tab minimized t1 w.
Proof.
  unfold onActivated_2, onActivated_1. destruct minimized.
  - apply stopTracking_idle_noop.
    + apply stopTracking_currentSite.
    + apply stopTracking_intervalId.
  - rewrite startTracking_enabledPlatforms. apply startTracking_twice.
Qed.

(** ** [chrome.tabs.onUpdated] *)

(** X9.  A URL change reaches the session only through the active tab: an
    update of another tab, or one without a URL, changes nothing.  In the
    active tab, a navigation that stays on the tracked site changes
    nothing (the running minute is kept); a navigation to a URL that is
    not tracked ends the session; a navigation to another tracked site
    makes it the current site with a session that starts now. *)
Theorem onUpdated_cases (URL_hostname : string → completion string)
    (tabId : Z) (url : option string) (now : Z) (w : World) :
  let w' := onUpdated URL_hostname tabId url now w in
  let site := getTrackedSite URL_hostname (enabledPlatforms w) url in
  (Some tabId ≠ activeTabId w ∨ falsy_url url = true → w' = w) ∧
  (Some tabId = activeTabId w → falsy_url url = false →
   (hostname <$> site = hostname <$> currentSite w → w' = w) ∧
   (site = None →
    currentSite w' = None ∧ (timer_matches_session w → timers w' = [])) ∧
   (∀ s, site = Some s →
         hostname <$> currentSite w ≠ Some (hostname s) →
         currentSite w' = Some s ∧ lastUpdateTime w' = now ∧
         ∃ i, intervalId w' = Some i ∧ i ∈ timers w')).
Proof.
  cbn zeta. unfold onUpdated. split.
  - intros [Hother | Hnone].
    + rewrite bool_decide_eq_false_2 by exact Hother. reflexivity.
    + rewrite Hnone, andb_false_r. reflexivity.
  - intros Hactive Hurl.
    rewrite bool_decide_eq_true_2 by exact Hactive. rewrite Hurl.
    cbn [negb andb].
    set (site := getTrackedSite URL_hostname (enabledPlatforms w) url).
    split; [| split].
    + intros Hsame. unfold startTracking.
      assert (same_hostname (currentSite w) site = true) as ->
        by (by apply same_hostname_true).
      reflexivity.
    + intros ->. unfold startTracking.
      destruct (same_hostname (currentSite w) None) eqn:Hsame.
      * apply same_hostname_true in Hsame.
        destruct (currentSite w) eqn:Hcur; [discriminate |].
        split; [reflexivity |].
        intros [Hiff Htimers]. rewrite Htimers.
        destruct (intervalId w); [| reflexivity].
        rewrite Hcur in Hiff.
        destruct (proj1 Hiff (mk_is_Some _ _ eq_refl)) as [? [=]].
      * split; [reflexivity |].
        intros Hinv.
        cbn [timers set_lastUpdateTime set_currentSite].
        by apply stopTracking_idle.
    + intros s -> Hother. by apply startTracking_starts.
Qed.

(** A navigation inside axiom.trade, 45 seconds into the session. *)
Lemma onUpdated_cases_witness :
  onUpdated sample_URL_hostname 7 (Some "https://axiom.trade/pulse") 45000
    tracking_axiom
  = tracking_axiom.
Proof.
  destruct (onUpdated_cases sample_URL_hostname 7
              (Some "https://axiom.trade/pulse") 45000 tracking_axiom)
    as [_ Hactive].
  destruct (Hactive eq_refl eq_refl) as [Hsame _].
  apply Hsame. reflexivity.
Defined.

(** ** While nothing is tracked *)



(** ** Flushes in a row *)

Lemma flush_session (now : Z) (w : World) :
  session (flush now w) = session w.
Proof.
  unfold flush, quiesce. rewrite drain_session. apply updateTime_session.
Qed.

(** One flush on its own, from a state with nothing suspended: either it
    stores the whole minutes and moves [lastUpdateTime] to [now], or it
    changes nothing. *)
Lemma flush_step (now : Z) (w : World) (site : TrackedSite) :
  pending w = [] →
  currentSite w = Some site →
  lastUpdateTime w ≤ now →
  pending (flush now w) = [] ∧
  currentSite (flush now w) = Some site ∧
  lastUpdateTime w ≤ lastUpdateTime (flush now w) ≤ now ∧
  now - lastUpdateTime (flush now w) < 60000 ∧
  60000 * (total_of (hostname site) (flush now w)
           - total_of (hostname site) w)
  ≤ lastUpdateTime (flush now w) - lastUpdateTime w.
Proof.
  intros Hq Hsite Htime.
  split; [apply quiesce_pending |].
  split.
  { rewrite <- Hsite. exact (f_equal (λ s, s.1.1) (flush_session now w)). }
  pose proof (Z.div_mod (now - lastUpdateTime w) 60000 ltac:(lia)) as Hdm.
  pose proof (Z.mod_pos_bound (now - lastUpdateTime w) 60000 ltac:(lia))
    as Hmod.
  destruct (decide (1 ≤ elapsedMinutes now w)) as [Hone | Hzero].
  - rewrite (flush_stores now w site Hq Hsite Hone).
    unfold total_of.
    cbn [lastUpdateTime stored_timeData set_lastUpdateTime
         set_stored_timeData from_option id].
    rewrite total_in_credit, decide_True by reflexivity.
    unfold elapsedMinutes in *. lia.
  - assert (flush now w = w) as ->.
    { unfold flush, updateTime. rewrite Hsite.
      destruct (Z.leb_spec 1 (elapsedMinutes now w)); [lia |].
      unfold quiesce. rewrite Hq. reflexivity. }
    unfold elapsedMinutes in *. lia.
Qed.

(** X11.  After a flush at a time not before [lastUpdateTime], less than
    one minute of the session is left unflushed. *)
Theorem flush_leaves_less_than_a_minute (now : Z) (w : World)
    (site : TrackedSite) :
  pending w = [] →
  currentSite w = Some site →
  lastUpdateTime w ≤ now →
  0 ≤ now - lastUpdateTime (flush now w) < 60000.
Proof.
  intros Hq Hsite Htime.
  destruct (flush_step now w site Hq Hsite Htime)
    as (_ & _ & Hlast & Hrest & _).
  lia.
Qed.

Lemma flush_leaves_less_than_a_minute_witness :
  0 ≤ 119000 - lastUpdateTime (flush 119000 tracking_axiom) < 60000.
Proof.
  apply (flush_leaves_less_than_a_minute 119000 tracking_axiom axiom_site);
    [reflexivity | reflexivity | vm_compute; discriminate].
Defined.

Lemma last_cons_default (x : Z) (l : list Z) (d d' : Z) :
  List.last (x :: l) d = List.last (x :: l) d'.
Proof.
  revert x. induction l as [| y l IH]; intros x; [reflexivity |].
  change (List.last (y :: l) d = List.last (y :: l) d'). apply IH.
Qed.

Lemma flushes_bound (times : list Z) (w : World) (site : TrackedSite)
    (t0 : Z) :
  pending w = [] →
  currentSite w = Some site →
  lastUpdateTime w ≤ t0 →
  nondecreasing_from t0 times →
  60000 * (total_of (hostname site) (flushes times w)
           - total_of (hostname site) w)
  ≤ lastUpdateTime (flushes times w) - lastUpdateTime w ∧
  lastUpdateTime (flushes times w) ≤ List.last times t0.
Proof.
  revert w t0. induction times as [| t rest IH]; intros w t0 Hq Hsite H0 Hup.
  - cbn. lia.
  - destruct Hup as [Ht Hrest]. cbn [flushes foldl].
    destruct (flush_step t w site Hq Hsite ltac:(lia))
      as (Hq' & Hsite' & Hlast & _ & Hcredit).
    destruct (IH (flush t w) t Hq' Hsite' ltac:(lia) Hrest)
      as [IHcredit IHlast].
    unfold flushes in IHcredit, IHlast.
    split; [lia |].
    destruct rest as [| t' rest']; [exact IHlast |].
    change (List.last (t :: t' :: rest') t0)
      with (List.last (t' :: rest') t0).
    rewrite (last_cons_default t' rest' t0 t). exact IHlast.
Qed.

(** X12.  However a session is cut into flushes, it is never credited
    more than the time that passed: over flushes at times that do not go
    back, the minutes added to the current site, taken as milliseconds, do
    not exceed the time from [lastUpdateTime] to the last flush. *)
Theorem flushes_never_overcredit (times : list Z) (w : World)
    (site : TrackedSite) :
  pending w = [] →
  currentSite w = Some site →
  nondecreasing_from (lastUpdateTime w) times →
  60000 * (total_of (hostname site) (flushes times w)
           - total_of (hostname site) w)
  ≤ List.last times (lastUpdateTime w) - lastUpdateTime w.
Proof.
  intros Hq Hsite Hup.
  destruct (flushes_bound times w site (lastUpdateTime w) Hq Hsite
              ltac:(lia) Hup) as [Hcredit Hlast].
  lia.
Qed.

(** Nine ticks of ten seconds, then a flush at 150 s: two minutes. *)
Lemma flushes_never_overcredit_witness :
  total_of "axiom.trade"
    (flushes [10000; 20000; 30000; 40000; 50000; 60000; 70000; 80000;
              90000; 150000] tracking_axiom) = 5 + 2 ∧
  60000 * (total_of "axiom.trade"
             (flushes [10000; 20000; 30000; 40000; 50000; 60000; 70000;
                       80000; 90000; 150000] tracking_axiom)
           - total_of "axiom.trade" tracking_axiom)
  ≤ 150000 - 0.
Proof.
  split; [reflexivity |].
  apply (flushes_never_overcredit
           [10000; 20000; 30000; 40000; 50000; 60000; 70000; 80000;
            90000; 150000] tracking_axiom axiom_site);
    [reflexivity | reflexivity | cbn; lia].
Defined.

(** ** A reset while a session runs *)

Lemma resetData_initialData : resetData = initialData.
Proof. by vm_compute. Qed.

(** X13.  A confirmed reset stores the table a fresh install creates, a
    zero entry for each tracked site, and leaves the session alone:
    [lastUpdateTime] is not moved, so the whole minutes that had passed
    before the reset and were not yet flushed are credited by the next
    flush, on top of zero. *)
Theorem reset_keeps_session (now : Z) (w : World) (site : TrackedSite) :
  pending w = [] →
  currentSite w = Some site →
  0 ≤ elapsedMinutes now w →
  stored_timeData (resetAllData true w) = Some initialData ∧
  session (resetAllData true w) = session w ∧
  lastUpdateTime (resetAllData true w) = lastUpdateTime w ∧
  total_of (hostname site) (flush now (resetAllData true w))
  = elapsedMinutes now w.
Proof.
  intros Hq Hsite Hmin.
  split; [cbn; by rewrite resetData_initialData |].
  split; [reflexivity |]. split; [reflexivity |].
  set (w' := resetAllData true w).
  assert (elapsedMinutes now w' = elapsedMinutes now w) as He by reflexivity.
  assert (pending w' = []) as Hq' by exact Hq.
  assert (currentSite w' = Some site) as Hsite' by exact Hsite.
  assert (∀ h, total_of h w' = 0) as Hzero'.
  { intros h. unfold total_of. cbn. apply total_in_resetData. }
  destruct (decide (1 ≤ elapsedMinutes now w)) as [Hone | Hzero].
  - rewrite (flush_stores now w' site Hq' Hsite') by (rewrite He; exact Hone).
    unfold total_of at 1.
    cbn [stored_timeData set_lastUpdateTime set_stored_timeData
         from_option id].
    rewrite total_in_credit, decide_True by reflexivity.
    fold (total_of (hostname site) w'). rewrite Hzero', He. lia.
  - assert (flush now w' = w') as ->.
    { unfold flush, updateTime. rewrite Hsite'.
      destruct (Z.leb_spec 1 (elapsedMinutes now w')); [lia |].
      unfold quiesce. rewrite Hq'. reflexivity. }
    rewrite Hzero'. lia.
Qed.

(** The reset comes 119 s into the session, the next tick at 120 s. *)
Lemma reset_keeps_session_witness :
  total_of "axiom.trade" (flush 120000 (resetAllData true tracking_axiom))
  = 2.
Proof.
  destruct (reset_keeps_session 120000 tracking_axiom axiom_site
              eq_refl eq_refl) as (_ & _ & _ & Hflush).
  - vm_compute. discriminate.
  - exact Hflush.
Defined.

(** ** The final update, in every state *)

(** X14.  The update that [stopTracking] starts is never stored: once
    everything [stopTracking] started has run, [timeData] and
    [lastUpdateTime] are as before the call, whatever time the session had
    accumulated; with a whole minute or more accumulated the update ends
    in an unhandled rejection. *)
Theorem stopTracking_drops_final_minutes (now : Z) (w : World) :
  pending w = [] →
  stored_timeData (quiesce (stopTracking now w)) = stored_timeData w ∧
  lastUpdateTime (quiesce (stopTracking now w)) = lastUpdateTime w ∧
  currentSite (quiesce (stopTracking now w)) = None ∧
  (is_Some (currentSite w) → 1 ≤ elapsedMinutes now w →
   unhandledRejections (quiesce (stopTracking now w))
   = S (unhandledRejections w)).
Proof.
  intros Hq. unfold stopTracking, updateTime, elapsedMinutes.
  destruct w as [tab cur last iid ep tm nxt td st q rej].
  cbn in Hq. subst q.
  destruct iid, cur as [site |];
    cbn [intervalId currentSite lastUpdateTime clearInterval];
    try (repeat split; try reflexivity; intros [? [=]]);
    (destruct (Z.leb_spec 1 ((now - last) / 60000));
     [repeat split; reflexivity
     | repeat split; try reflexivity; intros _ Hone; cbn in Hone; lia]).
Qed.

Lemma stopTracking_drops_final_minutes_witness :
  stored_timeData (quiesce (stopTracking 120000 tracking_axiom))
  = stored_timeData tracking_axiom ∧
  unhandledRejections (quiesce (stopTracking 120000 tracking_axiom)) = 1%nat.
Proof.
  destruct (stopTracking_drops_final_minutes 120000 tracking_axiom eq_refl)
    as (Hstore & _ & _ & Hrej).
  split; [exact Hstore |].
  apply Hrej; [by eexists | vm_compute; discriminate].
Defined.

(** X15.  On a switch from one site to another with a whole minute or more
    accumulated, [startTracking] has made the new site current before the
    suspended update stores anything: the minutes of the old session are
    added to the total of the new site, the total of the old site is
    unchanged, and the new session starts at [now]. *)
Theorem switch_credits_new_site (now : Z) (w : World)
    (old new : TrackedSite) :
  pending w = [] →
  currentSite w = Some old →
  hostname old ≠ hostname new →
  1 ≤ elapsedMinutes now w →
  total_of (hostname new) (quiesce (startTracking now (Some new) w))
  = total_of (hostname new) w + elapsedMinutes now w ∧
  total_of (hostname old) (quiesce (startTracking now (Some new) w))
  = total_of (hostname old) w ∧
  currentSite (quiesce (startTracking now (Some new) w)) = Some new ∧
  lastUpdateTime (quiesce (startTracking now (Some new) w)) = now.
Proof.
  intros Hq Hcur Hne Hmin.
  assert (stored_timeData (quiesce (startTracking now (Some new) w))
          = Some (credit new (elapsedMinutes now w)
                         (default ∅ (stored_timeData w))) ∧
          currentSite (quiesce (startTracking now (Some new) w)) = Some new ∧
          lastUpdateTime (quiesce (startTracking now (Some new) w)) = now)
    as (Hstore & Hnew & Hlast).
  { unfold startTracking, same_hostname. rewrite Hcur.
    rewrite bool_decide_eq_false_2 by (cbn; congruence).
    unfold stopTracking, updateTime.
    destruct w as [tab cur last iid ep tm nxt td st q rej].
    cbn in Hq, Hcur. subst q cur.
    unfold elapsedMinutes in *. cbn [lastUpdateTime] in Hmin.
    apply Z.leb_le in Hmin.
    destruct iid; cbn [intervalId currentSite lastUpdateTime clearInterval];
      rewrite Hmin; repeat split; reflexivity. }
  unfold total_of. rewrite Hstore. cbn [from_option id].
  rewrite !total_in_credit.
  rewrite decide_True by reflexivity. rewrite decide_False by exact Hne.
  repeat split; [lia | assumption | assumption].
Qed.

Lemma switch_credits_new_site_witness :
  total_of "gmgn.ai"
    (quiesce (startTracking 120000 (Some gmgn_site) tracking_axiom)) = 0 + 2 ∧
  total_of "axiom.trade"
    (quiesce (startTracking 120000 (Some gmgn_site) tracking_axiom)) = 5.
Proof.
  destruct (switch_credits_new_site 120000 tracking_axiom axiom_site
              gmgn_site eq_refl eq_refl) as (Hnew & Hold & _).
  - discriminate.
  - vm_compute. discriminate.
  - split; [exact Hnew | exact Hold].
Defined.

(** ** The listeners and the store *)

Lemma updateTime_settings (now : Z) (w : World) :
  stored_settings (updateTime now w) = stored_settings w.
Proof.
  unfold updateTime. destruct (currentSite w); [| reflexivity].
  destruct (1 <=? elapsedMinutes now w); reflexivity.
Qed.

Lemma stopTracking_settings (now : Z) (w : World) :
  stored_settings (stopTracking now w) = stored_settings w.
Proof.
  unfold stopTracking. cbn [stored_settings set_currentSite].
  destruct (intervalId w); cbn [currentSite clearInterval];
    destruct (currentSite w); rewrite ?updateTime_settings; reflexivity.
Qed.

Lemma startTracking_settings (now : Z) (site : option TrackedSite)
    (w : World) :
  stored_settings (startTracking now site w) = stored_settings w.
Proof.
  unfold startTracking. destruct (same_hostname (currentSite w) site);
    [reflexivity |].
  destruct site; cbn [stored_settings setInterval set_lastUpdateTime
                      set_currentSite]; apply stopTracking_settings.
Qed.

Lemma listener_settings (URL_hostname : string → completion string)
    (ev : Event) (w : World) :
  is_listener ev →
  stored_settings (step URL_hostname ev w) = stored_settings w.
Proof.
  intros Hev.
  apply (listener_preserves URL_hostname
           (λ w', stored_settings w' = stored_settings w)); auto.
  - intros now w' <-. apply updateTime_settings.
  - intros now w' <-. apply stopTracking_settings.
  - intros now site w' <-. apply startTracking_settings.
Qed.

(** X16.  No listener of [background.js], and no timer callback, writes
    to the store in its synchronous part: [timeData] and [settings] are
    changed only when a suspended function resumes, or by the popup. *)
Theorem listeners_never_write_store
    (URL_hostname : string → completion string) (ev : Event) (w : World) :
  is_listener ev →
  stored_timeData (step URL_hostname ev w) = stored_timeData w ∧
  stored_settings (step URL_hostname ev w) = stored_settings w.
Proof.
  intros Hev. split.
  - by apply listener_stored.
  - by apply listener_settings.
Qed.

(** The browser loses focus two minutes into the session. *)
Lemma listeners_never_write_store_witness :
  stored_timeData
    (step sample_URL_hostname (EvFocusChanged None 120000) tracking_axiom)
  = stored_timeData tracking_axiom.
Proof.
  apply (listeners_never_write_store sample_URL_hostname
           (EvFocusChanged None 120000) tracking_axiom).
  exact I.
Defined.

(** ** The popup *)

(** X17.  When a platform toggle of the popup has been saved and its
    message delivered, the controller's [enabledPlatforms] is the map the
    store holds: the earlier map with the toggled platform set to the
    state of the checkbox.  Theme and custom image are as before.  When
    the stored settings have no [enabledPlatforms], the handler throws:
    nothing is saved and no message is sent. *)
Theorem toggle_reaches_controller
    (URL_hostname : string → completion string)
    (platform : string) (checked : bool) (tabs0 : option Tab) (now : Z)
    (w : World) :
  let w' := toggle_and_notify URL_hostname platform checked tabs0 now w in
  (∀ ep,
      settings_enabledPlatforms (loadSettings w) = Some ep →
      enabledPlatforms w' = <[platform := checked]> ep ∧
      enabledPlatforms w' !! platform = Some checked ∧
      stored_settings w'
      = Some (mkSettings (Some (enabledPlatforms w'))
                         (settings_theme (loadSettings w))
                         (settings_customBgImage (loadSettings w)))) ∧
  (settings_enabledPlatforms (loadSettings w) = None →
   stored_settings w' = stored_settings w ∧
   enabledPlatforms w' = enabledPlatforms w ∧
   session w' = session w).
Proof.
  cbn zeta. unfold toggle_and_notify, onPlatformToggle. split.
  - intros ep Hep. rewrite Hep.
    set (ep' := <[platform := checked]> ep).
    set (w1 := saveSettings _ w).
    assert (enabledPlatforms
              (onMessage URL_hostname (UpdateEnabledPlatforms ep')
                 tabs0 now w1) = ep') as Hmap.
    { destruct tabs0 as [tab |]; [| reflexivity].
      by destruct (onMessage_with_tab URL_hostname ep' tab now w1)
        as [Hmap _]. }
    rewrite Hmap. split; [reflexivity |].
    split; [apply lookup_insert_eq |].
    exact (listener_settings URL_hostname
             (EvMessage (UpdateEnabledPlatforms ep') tabs0 now) w1 I).
  - intros ->. repeat split; reflexivity.
Qed.

(** axiom.trade is switched off in the popup while it is tracked. *)
Lemma toggle_reaches_controller_witness :
  enabledPlatforms
    (toggle_and_notify sample_URL_hostname "axiom.trade" false
       (Some (mkTab 7 (Some "https://axiom.trade/"))) 130000 tracking_axiom)
  !! "axiom.trade" = Some false.
Proof.
  destruct (toggle_reaches_controller sample_URL_hostname "axiom.trade"
              false (Some (mkTab 7 (Some "https://axiom.trade/"))) 130000
              tracking_axiom) as [Hsaved _].
  destruct (Hsaved DEFAULT_enabledPlatforms eq_refl) as (_ & Hlook & _).
  exact Hlook.
Defined.


